(** * tile-ortho: tiling of orthophotos and YOLO label conversion

    A shallow embedding of [tile_ortho.py] and of the three scripts that
    drive it ([tile_orthophoto.py], [prepare_yolo_dataset.py],
    [combine_yolo_outputs.py]).

    Conventions of the embedding:
    - Python exceptions are values of [PyError]; fallible code lives in the
      [Result] monad.
    - Python floats are exact rationals [Q], the arithmetic the formulas are
      meant to compute; what is proved over [Q] is a statement about exact
      arithmetic and says so. The two label converters are written once over
      an interface [PyFloat], and the grid computation is repeated over
      floats, so that both can also be run on IEEE binary64
      ([PrimFloat.float]), the arithmetic CPython evaluates; the places where
      rounding, NaN or infinity part the two are shown on examples.
    - shapely / geopandas geometry is an interface [shapely.Geometry];
      axis-aligned rectangles give a concrete instance.
    - label files are read twice: as parsed records, and as text through the
      [str] methods and number constructors of an interface [PyText].
    - directories are finite maps from file names to file contents. *)

From Stdlib Require Import ZArith QArith Qround Qabs Lqa Lia List String Bool.
From Stdlib Require Import DecimalString DecimalZ DecimalPos.
From Stdlib Require Import PrimFloat SpecFloat FloatOps.
From stdpp Require Import gmap strings.

Local Open Scope Z_scope.

(** ** Exceptions *)

Inductive PyError : Type :=
| ZeroDivisionError
| ValueError (msg : string)
| AssertionError (msg : string)
| AttributeError
| KeyError (key : string)
| IndexError
| OverflowError (msg : string)
| RasterioIOError.

Inductive Result (A : Type) : Type :=
| Ok (a : A)
| Raise (e : PyError).
Arguments Ok {A} a.
Arguments Raise {A} e.

#[global] Instance Result_ret : MRet Result := fun _ a => Ok a.
#[global] Instance Result_bind : MBind Result := fun _ _ f m =>
  match m with
  | Ok a => f a
  | Raise e => Raise e
  end.

Definition is_ok {A} (r : Result A) : bool :=
  match r with Ok _ => true | Raise _ => false end.

(** ** Floating-point interface *)

Class PyFloat (F : Type) : Type := {
  fadd : F -> F -> F;
  fsub : F -> F -> F;
  fmul : F -> F -> F;
  fdiv : F -> F -> F;
  ftwo : F;
  fis_zero : F -> bool;
}.

Declare Scope pyfloat_scope.
Delimit Scope pyfloat_scope with py.
Infix "+" := fadd : pyfloat_scope.
Infix "-" := fsub : pyfloat_scope.
Infix "*" := fmul : pyfloat_scope.

#[global] Instance PyFloat_Q : PyFloat Q := {|
  fadd := Qplus; fsub := Qminus; fmul := Qmult; fdiv := Qdiv;
  ftwo := 2%Q; fis_zero := fun x => Qeq_bool x 0;
|}.

#[global] Instance PyFloat_binary64 : PyFloat float := {|
  fadd := PrimFloat.add; fsub := PrimFloat.sub;
  fmul := PrimFloat.mul; fdiv := PrimFloat.div;
  ftwo := 2%float; fis_zero := fun x => PrimFloat.eqb x 0%float;
|}.

(** [a / b] on Python floats: a zero divisor raises. *)
Definition py_truediv {F} `{PyFloat F} (a b : F) : Result F :=
  if fis_zero b then Raise ZeroDivisionError else Ok (fdiv a b).

Infix "/" := py_truediv : pyfloat_scope.

(** ** Bounding boxes and YOLO records *)

(** A bounding box is the tuple [(min_x, min_y, max_x, max_y)]. *)
Definition BBox (F : Type) : Type := (F * F * F * F)%type.

(** One line [class_id x_center y_center width height] of a label file. *)
Record YoloRecord (F : Type) : Type := MkYolo {
  yolo_class : Z;
  yolo_x_center : F;
  yolo_y_center : F;
  yolo_width : F;
  yolo_height : F;
}.
Arguments MkYolo {F}.
Arguments yolo_class {F}.
Arguments yolo_x_center {F}.
Arguments yolo_y_center {F}.
Arguments yolo_width {F}.
Arguments yolo_height {F}.

Section Converters.
Context {F : Type} `{PyFloat F}.
Local Open Scope pyfloat_scope.

(** [tile_ortho.convert_to_yolo_format]; the returned f-string is kept as
    its five fields. *)
Definition convert_to_yolo_format
    (object_bbox img_bbox : BBox F) (class_id : Z) : Result (YoloRecord F) :=
  let '(obj_min_x, obj_min_y, obj_max_x, obj_max_y) := object_bbox in
  let '(img_min_x, img_min_y, img_max_x, img_max_y) := img_bbox in
  let img_width := img_max_x - img_min_x in
  let img_height := img_max_y - img_min_y in
  obj_min_x_yolo ← (obj_min_x - img_min_x) / img_width;
  obj_max_x_yolo ← (obj_max_x - img_min_x) / img_width;
  obj_min_y_yolo ← (img_max_y - obj_max_y) / img_height;
  obj_max_y_yolo ← (img_max_y - obj_min_y) / img_height;
  let x_center := fdiv (obj_min_x_yolo + obj_max_x_yolo) ftwo in
  let y_center := fdiv (obj_min_y_yolo + obj_max_y_yolo) ftwo in
  let width := obj_max_x_yolo - obj_min_x_yolo in
  let height := obj_max_y_yolo - obj_min_y_yolo in
  mret (MkYolo class_id x_center y_center width height).

(** The body of the loop of [tile_ortho.bboxes_from_yolo_output] up to the
    corner coordinates [(x1, y1, x2, y2)] of the rectangle it builds. *)
Definition bbox_from_yolo_record (bounds : BBox F) (parts : YoloRecord F)
    : BBox F :=
  let '(b0, b1, b2, b3) := bounds in
  let width := b2 - b0 in
  let height := b3 - b1 in
  let x_center := b0 + yolo_x_center parts * width in
  let y_center := b3 - yolo_y_center parts * height in
  let box_width := yolo_width parts * width in
  let box_height := yolo_height parts * height in
  let x1 := x_center - fdiv box_width ftwo in
  let y1 := y_center - fdiv box_height ftwo in
  let x2 := x_center + fdiv box_width ftwo in
  let y2 := y_center + fdiv box_height ftwo in
  (x1, y1, x2, y2).

(** Encode, then decode against the same image bounds. *)
Definition yolo_round_trip (object_bbox img_bbox : BBox F) (class_id : Z)
    : Result (BBox F) :=
  parts ← convert_to_yolo_format object_bbox img_bbox class_id;
  mret (bbox_from_yolo_record img_bbox parts).
End Converters.

(** *** Comparing boxes *)

Definition bbox_eqQ (a b : BBox Q) : Prop :=
  let '(a0, a1, a2, a3) := a in
  let '(b0, b1, b2, b3) := b in
  (a0 == b0 /\ a1 == b1 /\ a2 == b2 /\ a3 == b3)%Q.

(** [b] lies strictly inside [img]. *)
Definition strictly_insideQ (b img : BBox Q) : Prop :=
  let '(x1, y1, x2, y2) := b in
  let '(ix1, iy1, ix2, iy2) := img in
  (ix1 < x1 /\ x1 <= x2 /\ x2 < ix2 /\ iy1 < y1 /\ y1 <= y2 /\ y2 < iy2)%Q.

(** Relative closeness as [math.isclose(a, b, rel_tol=tol)] computes it on
    binary64 values. *)
Definition isclose (tol a b : float) : bool :=
  let fmax x y := if PrimFloat.ltb x y then y else x in
  PrimFloat.leb (PrimFloat.abs (a - b))
                (tol * fmax (PrimFloat.abs a) (PrimFloat.abs b))%float.

Definition bbox_isclose (tol : float) (a b : BBox float) : bool :=
  let '(a0, a1, a2, a3) := a in
  let '(b0, b1, b2, b3) := b in
  isclose tol a0 b0 && isclose tol a1 b1 && isclose tol a2 b2 && isclose tol a3 b3.

Definition strictly_inside64 (b img : BBox float) : bool :=
  let '(x1, y1, x2, y2) := b in
  let '(ix1, iy1, ix2, iy2) := img in
  PrimFloat.ltb ix1 x1 && PrimFloat.leb x1 x2 && PrimFloat.ltb x2 ix2 &&
  PrimFloat.ltb iy1 y1 && PrimFloat.leb y1 y2 && PrimFloat.ltb y2 iy2.

(** The round trip agrees with the input within relative tolerance [tol]. *)
Definition round_trip_within (tol : float) (b img : BBox float) : Prop :=
  exists b', yolo_round_trip b img 0 = Ok b' /\ bbox_isclose tol b' b = true.

(** The tolerance [1e-9] as CPython reads the literal (nearest binary64). *)
Definition rel_tol_1e9 : float := 0x1.12e0be826d695p-30%float.

(** ** Python integers and strings *)

(** [int(x)] on a float: truncation toward zero. *)
Definition py_int (x : Q) : Z := Z.quot (Qnum x) (Z.pos (Qden x)).

(** [str(n)] / [f"{n}"] on an [int]. *)
Definition py_str (n : Z) : string := NilZero.string_of_int (Z.to_int n).

(** [range(n)]: empty when [n <= 0]. *)
Definition py_range (n : Z) : list Z := map Z.of_nat (seq 0 (Z.to_nat n)).

(** ** Geometry: the part of shapely and geopandas the code calls *)

Definition Point : Type := (Q * Q)%type.

Definition in_bbox (b : BBox Q) (p : Point) : bool :=
  let '(x1, y1, x2, y2) := b in
  let '(x, y) := p in
  Qle_bool x1 x && Qle_bool x x2 && Qle_bool y1 y && Qle_bool y y2.

Definition Qlt_bool (a b : Q) : bool := negb (Qle_bool b a).

(** The open rectangle of a bounding box. *)
Definition in_interior (b : BBox Q) (p : Point) : bool :=
  let '(x1, y1, x2, y2) := b in
  let '(x, y) := p in
  Qlt_bool x1 x && Qlt_bool x x2 && Qlt_bool y1 y && Qlt_bool y y2.

Module shapely.

Class Geometry (G : Type) : Type := {
  (** [g.bounds] *)
  bounds : G -> BBox Q;
  (** [shapely.geometry.box(minx, miny, maxx, maxy)] *)
  box : Q -> Q -> Q -> Q -> G;
  (** [shapely.geometry.Polygon(points)] *)
  Polygon : list Point -> G;
  (** [a.intersection(b)] *)
  intersection : G -> G -> G;
  (** [g.buffer(distance, join_style=2)] *)
  buffer : G -> Q -> G;
  (** [shapely.geometry.Point(x, y).buffer(1, resolution=4)] *)
  point_buffer : Point -> G;
  (** [shapely.affinity.scale(g, xfact, yfact)] *)
  scale : G -> Q -> Q -> G;
  (** [g.clip_by_rect(minx, miny, maxx, maxy)], what [GeoSeries.clip]
      applies to every row when the mask is a 4-tuple *)
  clip_by_rect : G -> BBox Q -> G;
  (** [g.centroid] *)
  centroid : G -> Point;
  (** [g.is_empty] *)
  is_empty : G -> bool;
  (** [g.intersects(Point(p))]: the point lies in [g], boundary included *)
  covers : G -> Point -> bool;
  (** [GeoDataFrame.to_crs(crs)] on one geometry of the areas file, [crs]
      being the CRS of the orthophoto: the reprojection from the CRS of the
      file, which changes nothing when the two agree *)
  to_crs : G -> G;
}.

(** What the proofs below use of the library's documented behaviour. *)
Class GeometryLaws (G : Type) `{Geometry G} : Prop := {
  covers_intersection : forall a b p,
    covers (intersection a b) p = covers a p && covers b p;
  covers_clip_by_rect : forall g r p,
    covers (clip_by_rect g r) p = covers g p && in_bbox r p;
  covers_buffer : forall g d p,
    (0 < d)%Q -> covers g p = true -> covers (buffer g d) p = true;
  covers_is_empty : forall g p, is_empty g = true -> covers g p = false;
}.

End shapely.

(** *** Axis-aligned rectangles *)

(** The closed rectangle [[min_x, max_x] x [min_y, max_y]], or nothing. *)
Inductive Rect : Type :=
| EmptyRect
| MkRect (min_x min_y max_x max_y : Q).

Definition rect_box (x1 y1 x2 y2 : Q) : Rect :=
  if Qle_bool x1 x2 && Qle_bool y1 y2 then MkRect x1 y1 x2 y2 else EmptyRect.

Definition Qmin (a b : Q) : Q := if Qle_bool a b then a else b.
Definition Qmax (a b : Q) : Q := if Qle_bool a b then b else a.

Definition rect_intersection (a b : Rect) : Rect :=
  match a, b with
  | MkRect ax1 ay1 ax2 ay2, MkRect bx1 by1 bx2 by2 =>
      rect_box (Qmax ax1 bx1) (Qmax ay1 by1) (Qmin ax2 bx2) (Qmin ay2 by2)
  | _, _ => EmptyRect
  end.

Definition rect_covers (g : Rect) (p : Point) : bool :=
  match g with
  | EmptyRect => false
  | MkRect x1 y1 x2 y2 => in_bbox (x1, y1, x2, y2) p
  end.

Definition rect_of_points (pts : list Point) : Rect :=
  match pts with
  | [] => EmptyRect
  | (x, y) :: rest =>
      fold_left (fun r '(px, py) =>
        match r with
        | MkRect x1 y1 x2 y2 =>
            MkRect (Qmin x1 px) (Qmin y1 py) (Qmax x2 px) (Qmax y2 py)
        | EmptyRect => EmptyRect
        end) rest (MkRect x y x y)
  end.

(** Rectangles as geometries, in the CRS of the orthophoto. [box] is meant
    for [min <= max], as the grid calls it. A mitred buffer moves every side by [d]; a negative [d] shrinks
    the rectangle and may leave nothing. The [Polygon] of the four corners of
    a rectangle is that rectangle; [point_buffer] is the bounding square of
    the 16-gon shapely returns. An empty geometry has no bounds or centroid
    in shapely (NaN); zeros stand for them here. *)
#[global] Instance Rect_Geometry : shapely.Geometry Rect := {|
  shapely.bounds g :=
    match g with
    | MkRect x1 y1 x2 y2 => (x1, y1, x2, y2)
    | EmptyRect => (0, 0, 0, 0)%Q
    end;
  shapely.box := rect_box;
  shapely.Polygon := rect_of_points;
  shapely.intersection := rect_intersection;
  shapely.buffer g d :=
    match g with
    | MkRect x1 y1 x2 y2 => rect_box (x1 - d) (y1 - d) (x2 + d) (y2 + d)
    | EmptyRect => EmptyRect
    end;
  shapely.point_buffer '(x, y) := MkRect (x - 1) (y - 1) (x + 1) (y + 1);
  shapely.scale g xfact yfact :=
    match g with
    | MkRect x1 y1 x2 y2 =>
        let cx := ((x1 + x2) / 2)%Q in
        let cy := ((y1 + y2) / 2)%Q in
        rect_of_points [ (cx + (x1 - cx) * xfact, cy + (y1 - cy) * yfact);
                         (cx + (x2 - cx) * xfact, cy + (y2 - cy) * yfact) ]%Q
    | EmptyRect => EmptyRect
    end;
  shapely.clip_by_rect g '(x1, y1, x2, y2) :=
    rect_intersection g (rect_box x1 y1 x2 y2);
  shapely.centroid g :=
    match g with
    | MkRect x1 y1 x2 y2 => ((x1 + x2) / 2, (y1 + y2) / 2)%Q
    | EmptyRect => (0, 0)%Q
    end;
  shapely.is_empty g := match g with EmptyRect => true | _ => false end;
  shapely.covers := rect_covers;
  shapely.to_crs g := g;
|}.

(** The same rectangles read from a file in another CRS, whose coordinates
    are those of the orthophoto moved by [(- dx, - dy)]: reprojecting moves a
    rectangle by [(dx, dy)]. *)
Definition Rect_Geometry_other_crs (dx dy : Q) : shapely.Geometry Rect := {|
  shapely.bounds := shapely.bounds (G := Rect);
  shapely.box := shapely.box (G := Rect);
  shapely.Polygon := shapely.Polygon (G := Rect);
  shapely.intersection := shapely.intersection (G := Rect);
  shapely.buffer := shapely.buffer (G := Rect);
  shapely.point_buffer := shapely.point_buffer (G := Rect);
  shapely.scale := shapely.scale (G := Rect);
  shapely.clip_by_rect := shapely.clip_by_rect (G := Rect);
  shapely.centroid := shapely.centroid (G := Rect);
  shapely.is_empty := shapely.is_empty (G := Rect);
  shapely.covers := shapely.covers (G := Rect);
  shapely.to_crs g :=
    match g with
    | MkRect x1 y1 x2 y2 => MkRect (x1 + dx) (y1 + dy) (x2 + dx) (y2 + dy)
    | EmptyRect => EmptyRect
    end;
|}.

(** ** Tile grid generator *)

(** One row of the areas table: the non-geometry columns (name, value) in
    column order, and the geometry, which is the last column. *)
Record Area (G : Type) : Type := MkArea {
  area_fields : list (string * string);
  area_geometry : G;
}.
Arguments MkArea {G}.
Arguments area_fields {G}.
Arguments area_geometry {G}.

(** One tuple yielded by [get_tiles]: [(tile_id, *fields, tile)]. *)
Record TileRow (G : Type) : Type := MkTileRow {
  tile_id : string;
  tile_fields : list (string * string);
  tile_inner : G;
}.
Arguments MkTileRow {G}.
Arguments tile_id {G}.
Arguments tile_fields {G}.
Arguments tile_inner {G}.

(** The grid cell [(i, j)] before it is intersected with the area. *)
Definition grid_cell (min_x min_y tile_width_m tile_height_m : Q) (i j : Z)
    : BBox Q :=
  (min_x + inject_Z i * tile_width_m,
   min_y + inject_Z j * tile_height_m,
   min_x + (inject_Z i + 1) * tile_width_m,
   min_y + (inject_Z j + 1) * tile_height_m)%Q.

(** [n_cols], [n_rows], [tile_width_m], [tile_height_m] of one area. *)
Definition grid_dims (b : BBox Q) (max_tile_width_m max_tile_height_m : Q)
    : Result (Z * Z * Q * Q) :=
  let '(min_x, min_y, max_x, max_y) := b in
  let width := (max_x - min_x)%Q in
  let height := (max_y - min_y)%Q in
  q_cols ← py_truediv width max_tile_width_m;
  let n_cols := Qceiling q_cols in
  q_rows ← py_truediv height max_tile_height_m;
  let n_rows := Qceiling q_rows in
  tile_width_m ← py_truediv width (inject_Z n_cols);
  tile_height_m ← py_truediv height (inject_Z n_rows);
  mret (n_cols, n_rows, tile_width_m, tile_height_m).


Section GetTiles.
Context {G : Type} `{shapely.Geometry G}.

(** The tuple built in the inner loop of [get_tiles] for cell [(i, j)]. *)
Definition make_tile (row : Area G) (min_x min_y tile_width_m tile_height_m : Q)
    (ij : Z * Z) : TileRow G :=
  let '(i, j) := ij in
  let '(x1, y1, x2, y2) := grid_cell min_x min_y tile_width_m tile_height_m i j in
  let tile := shapely.intersection (shapely.box x1 y1 x2 y2) (area_geometry row) in
  let min_x_rounded := py_int (min_x + inject_Z i * tile_width_m) in
  let min_y_rounded := py_int (min_y + inject_Z j * tile_height_m) in
  let tile_id := (py_str min_x_rounded ++ "_" ++ py_str min_y_rounded)%string in
  MkTileRow tile_id (area_fields row) tile.

(** The body of the outer loop of [get_tiles]: all tiles of one area. *)
Definition get_tiles_row (row : Area G) (max_tile_width_m max_tile_height_m : Q)
    : Result (list (TileRow G)) :=
  let '(min_x, min_y, max_x, max_y) := shapely.bounds (area_geometry row) in
  '(n_cols, n_rows, tile_width_m, tile_height_m) ←
    grid_dims (min_x, min_y, max_x, max_y) max_tile_width_m max_tile_height_m;
  mret (map (make_tile row min_x min_y tile_width_m tile_height_m)
            (list_prod (py_range n_cols) (py_range n_rows))).

(** [tile_ortho.get_tiles]: the generator, run to its end. *)
Fixpoint get_tiles (areas : list (Area G))
    (max_tile_width_m max_tile_height_m : Q) : Result (list (TileRow G)) :=
  match areas with
  | [] => mret []
  | row :: rest =>
      tiles ← get_tiles_row row max_tile_width_m max_tile_height_m;
      more ← get_tiles rest max_tile_width_m max_tile_height_m;
      mret (tiles ++ more)
  end.

(** The tiles the specification describes for one area: the grid of
    [ceil (W / mw)] by [ceil (H / mh)] equal cells over the bounding box,
    each cell intersected with the area. *)
Definition spec_tiles (row : Area G) (mw mh : Q) : list (TileRow G) :=
  let '(min_x, min_y, max_x, max_y) := shapely.bounds (area_geometry row) in
  let n_cols := Qceiling ((max_x - min_x) / mw) in
  let n_rows := Qceiling ((max_y - min_y) / mh) in
  let tw := ((max_x - min_x) / inject_Z n_cols)%Q in
  let th := ((max_y - min_y) / inject_Z n_rows)%Q in
  map (make_tile row min_x min_y tw th)
      (list_prod (py_range n_cols) (py_range n_rows)).

(** The bounding box of the area has positive width and height. *)
Definition positive_bounds (row : Area G) : Prop :=
  let '(min_x, min_y, max_x, max_y) := shapely.bounds (area_geometry row) in
  (min_x < max_x /\ min_y < max_y)%Q.

End GetTiles.

(** *** The grid as CPython computes it

    The numbers of [get_tiles] are binary64 floats. The lines that compute
    the grid are repeated here over [PrimFloat.float], to tell where
    rounding, NaN and infinity part the code from the exact arithmetic
    above. *)

(** [float(n)] on an [int], as in [width / n_cols] and [i * tile_width_m]:
    the nearest float, ties to even. Python refuses an [int] beyond the
    range of floats; the ceiling of a finite float and the cell indices are
    within it. *)
Definition float_of_Z (n : Z) : float :=
  SF2Prim (binary_normalize prec emax n 0 false).

(** The exact value of a finite float. *)
Definition Q_of_float (x : float) : Q :=
  match Prim2SF x with
  | S754_finite s m e =>
      (inject_Z (if s then Z.neg m else Z.pos m) * Qpower 2 e)%Q
  | _ => 0%Q
  end.

(** [math.ceil(x)] on a float. *)
Definition py_ceil64 (x : float) : Result Z :=
  match Prim2SF x with
  | S754_nan => Raise (ValueError "cannot convert float NaN to integer")
  | S754_infinity _ =>
      Raise (OverflowError "cannot convert float infinity to integer")
  | S754_zero _ => Ok 0
  | S754_finite s m e =>
      let v := if s then Z.neg m else Z.pos m in
      Ok (match e with
          | Z.neg p => - ((- v) / Z.pow_pos 2 p)
          | _ => v * 2 ^ e
          end)
  end.

(** Lines 71 to 77 of [get_tiles] on floats. *)
Definition grid_dims64 (b : BBox float)
    (max_tile_width_m max_tile_height_m : float) : Result (Z * Z * float * float) :=
  let '(min_x, min_y, max_x, max_y) := b in
  let width := (max_x - min_x)%float in
  let height := (max_y - min_y)%float in
  q_cols ← py_truediv width max_tile_width_m;
  n_cols ← py_ceil64 q_cols;
  q_rows ← py_truediv height max_tile_height_m;
  n_rows ← py_ceil64 q_rows;
  tile_width_m ← py_truediv width (float_of_Z n_cols);
  tile_height_m ← py_truediv height (float_of_Z n_rows);
  mret (n_cols, n_rows, tile_width_m, tile_height_m).

(** The corners of cell [(i, j)], lines 81 to 84, on floats. *)
Definition grid_cell64 (min_x min_y tile_width_m tile_height_m : float) (i j : Z)
    : BBox float :=
  (min_x + float_of_Z i * tile_width_m,
   min_y + float_of_Z j * tile_height_m,
   min_x + float_of_Z (i + 1) * tile_width_m,
   min_y + float_of_Z (j + 1) * tile_height_m)%float.

(** ** Rasters *)

(** One band: [height] rows of [width] pixel values. *)
Abbreviation Band := (list (list Z)).

(** What [rasterio] reads from a file: the profile's dtype and the array of
    shape [(bands, height, width)]; [count] is the number of bands. Pixel
    values are integers. *)
Record Raster : Type := MkRaster {
  raster_dtype : string;
  raster_data : list Band;
}.

Definition raster_count (r : Raster) : Z := Z.of_nat (length (raster_data r)).

(** [a == 0] *)
Definition alpha_mask (a : Band) : list (list bool) :=
  (fun row : list Z => (fun v => v =? 0) <$> row) <$> (a : list (list Z)).

(** [band[mask] = v] *)
Definition assign_masked (band : Band) (mask : list (list bool)) (v : Z) : Band :=
  zip_with (zip_with (fun x (m : bool) => if m then v else x)) band mask.

(** The values an integer dtype holds; the floating-point dtypes hold every
    value the code assigns. *)
Definition dtype_range (dtype : string) : option (Z * Z) :=
  if String.eqb dtype "int8" then Some (-128, 127)
  else if String.eqb dtype "uint8" then Some (0, 255)
  else if String.eqb dtype "int16" then Some (-32768, 32767)
  else if String.eqb dtype "uint16" then Some (0, 65535)
  else if String.eqb dtype "int32" then Some (-2147483648, 2147483647)
  else if String.eqb dtype "uint32" then Some (0, 4294967295)
  else if String.eqb dtype "int64" then Some (-9223372036854775808, 9223372036854775807)
  else if String.eqb dtype "uint64" then Some (0, 18446744073709551615)
  else None.

Definition dtype_holds (dtype : string) (v : Z) : bool :=
  match dtype_range dtype with
  | Some (lo, hi) => (lo <=? v) && (v <=? hi)
  | None => true
  end.

(** [band[mask] = v] on an array of the given dtype: numpy converts the
    Python integer [v] to the dtype before it looks at the mask, and since
    numpy 2 raises when the dtype cannot hold it (earlier versions wrapped
    the value around). *)
Definition np_setitem (dtype : string) (band : Band) (mask : list (list bool))
    (v : Z) : Result Band :=
  if dtype_holds dtype v then Ok (assign_masked band mask v)
  else Raise (OverflowError
                ("Python integer " ++ py_str v ++ " out of bounds for " ++ dtype)).

(** [tile_ortho.replace_geotiff_alpha] on a store of raster files. The
    unpacking [r, g, b, a = data] cannot fail under [count == 4]. *)
Definition replace_geotiff_alpha (input_path output_path : string)
    (files : gmap string Raster) : Result (gmap string Raster) :=
  match files !! input_path with
  | None => Raise RasterioIOError
  | Some src =>
      let data := raster_data src in
      rgb_data ←
        (if raster_count src =? 4 then
           match data with
           | [r; g; b; a] =>
               let alpha_mask := alpha_mask a in
               r ← np_setitem (raster_dtype src) r alpha_mask 255;
               g ← np_setitem (raster_dtype src) g alpha_mask 255;
               b ← np_setitem (raster_dtype src) b alpha_mask 255;
               Ok [r; g; b]
           | _ => Raise (ValueError "not enough values to unpack")
           end
         else if raster_count src =? 3 then Ok data
         else Raise (ValueError
                ("Unsupported band count: " ++ py_str (raster_count src))));
      mret (<[output_path := MkRaster (raster_dtype src) rgb_data]> files)
  end.

(** Pixel [(i, j)] of a band. *)
Definition pixel (band : Band) (i j : nat) : option Z :=
  row ← band !! i; row !! j.

(** Every band has [h] rows of [w] pixels. *)
Definition has_shape (h w : nat) (data : list Band) : Prop :=
  Forall (fun band => length band = h /\ Forall (fun row => length row = w) band)
         data.

(** ** The orthophoto handle *)

(** An [easyidp.geotiff.GeoTiff]: header fields, the pixel-to-geographic
    transform and polygon cropping, both provided by the library. *)
Record GeoTiff (G : Type) : Type := MkGeoTiff {
  gt_height : Z;
  gt_width : Z;
  gt_scale : Q * Q;
  gt_pixel2geo : Z * Z -> Point;
  gt_crop_polygon : G -> Raster;
}.
Arguments MkGeoTiff {G}.
Arguments gt_height {G}.
Arguments gt_width {G}.
Arguments gt_scale {G}.
Arguments gt_pixel2geo {G}.
Arguments gt_crop_polygon {G}.

(** [tile_ortho.geotiff_bounds] *)
Definition geotiff_bounds {G} (geotiff : GeoTiff G) : BBox Q :=
  let height := gt_height geotiff in
  let width := gt_width geotiff in
  let '(x0, y0) := gt_pixel2geo geotiff (0, height - 1) in
  let '(x1, y1) := gt_pixel2geo geotiff (width - 1, 0) in
  (x0, y0, x1, y1).

(** ** Decoding label files *)

Section Decoders.
Context {G : Type} `{shapely.Geometry G}.

(** [tile_ortho.bboxes_from_yolo_output] on the parsed lines of the file;
    reading the lines from text, with the errors it can raise, is
    [read_lines] below. *)
Definition bboxes_from_yolo_output (lines : list (YoloRecord Q))
    (bounds : BBox Q) : list Z * list G :=
  (map yolo_class lines,
   map (fun parts =>
          let '(x1, y1, x2, y2) := bbox_from_yolo_record bounds parts in
          shapely.Polygon [(x1, y1); (x1, y2); (x2, y2); (x2, y1)]) lines).

(** [tile_ortho.ovals_from_yolo_output] on the parsed lines of the file. *)
Definition ovals_from_yolo_output (lines : list (YoloRecord Q))
    (bounds : BBox Q) : list Z * list G :=
  let '(b0, b1, b2, b3) := bounds in
  let width := (b2 - b0)%Q in
  let height := (b3 - b1)%Q in
  (map yolo_class lines,
   map (fun parts =>
          let x_center := (b0 + yolo_x_center parts * width)%Q in
          let y_center := (b3 - yolo_y_center parts * height)%Q in
          let box_width := (yolo_width parts * width)%Q in
          let box_height := (yolo_height parts * height)%Q in
          let unit_circle := shapely.point_buffer (x_center, y_center) in
          shapely.scale unit_circle (box_width / 2)%Q (box_height / 2)%Q) lines).

(** ** Reassembling detections: [combine_yolo_outputs.main] *)

(** Rows of one tile's frame whose centroid survives [clip(tile_inner)]:
    geopandas keeps a point exactly when it intersects the mask. The rows
    are listed here in file order; geopandas returns them in the order of
    its spatial index, so only membership in the result is meaningful. *)
Definition clip_by_centroid (tile_inner : G) (part : list (Z * G))
    : list (Z * G) :=
  List.filter (fun row => shapely.covers tile_inner (shapely.centroid (snd row)))
              part.

Definition shape_error (shape : string) : PyError :=
  ValueError ("Shape should be rectangle or oval. Got " ++ shape ++ " instead.").

(** The frame built for one tile whose two files exist. *)
Definition tile_detections (shape : string) (orthophoto : GeoTiff G)
    (lines : list (YoloRecord Q)) : Result (list (Z * G)) :=
  let bounds := geotiff_bounds orthophoto in
  '(classes, polygons) ←
    (if String.eqb shape "oval" then Ok (ovals_from_yolo_output lines bounds)
     else if String.eqb shape "rectangle"
          then Ok (bboxes_from_yolo_output lines bounds)
          else Raise (shape_error shape));
  mret (zip classes polygons).

Definition geotiff_name (tile_id : string) : string := "tile_" ++ tile_id ++ ".tif".
Definition labels_name (tile_id : string) : string := "tile_" ++ tile_id ++ ".txt".

(** The loop over the tiles shapefile; the result is [polygons_gdf_parts]. *)
Fixpoint combine_parts (yolo_labels_dir : gmap string (list (YoloRecord Q)))
    (tile_images_dir : gmap string (GeoTiff G))
    (tiles_gdf : list (TileRow G)) (shape : string)
    : Result (list (list (Z * G))) :=
  match tiles_gdf with
  | [] => mret []
  | tile :: rest =>
      match tile_images_dir !! geotiff_name (tile_id tile),
            yolo_labels_dir !! labels_name (tile_id tile) with
      | Some orthophoto, Some lines =>
          polygons_gdf_part ← tile_detections shape orthophoto lines;
          let polygons_gdf_part_clipped :=
            clip_by_centroid (tile_inner tile) polygons_gdf_part in
          parts ← combine_parts yolo_labels_dir tile_images_dir rest shape;
          mret (polygons_gdf_part_clipped :: parts)
      | _, _ => combine_parts yolo_labels_dir tile_images_dir rest shape
      end
  end.

(** The two values of [shape] the script knows. *)
Definition supported (shape : string) : Prop :=
  shape = "oval"%string \/ shape = "rectangle"%string.

(** Both files of a tile exist: its image and its label file. *)
Definition has_both_files (yolo_labels_dir : gmap string (list (YoloRecord Q)))
    (tile_images_dir : gmap string (GeoTiff G)) (tile : TileRow G) : Prop :=
  is_Some (tile_images_dir !! geotiff_name (tile_id tile)) /\
  is_Some (yolo_labels_dir !! labels_name (tile_id tile)).

(** [x] is a row of [l] exactly once. *)
Definition occurs_once {A} (x : A) (l : list A) : Prop :=
  exists l1 l2, l = l1 ++ x :: l2 /\ ~ In x l1 /\ ~ In x l2.

(** [pd.concat(parts, ignore_index=True)]: pandas refuses an empty list. *)
Definition pd_concat {A} (parts : list (list A)) : Result (list A) :=
  match parts with
  | [] => Raise (ValueError "No objects to concatenate")
  | _ => Ok (concat parts)
  end.

(** [combine_yolo_outputs.main]; [Ok rows] stands for the table written to
    [outfile]. *)
Definition combine_main (yolo_labels_dir : gmap string (list (YoloRecord Q)))
    (tile_images_dir : gmap string (GeoTiff G))
    (tiles_gdf : list (TileRow G)) (shape : string) : Result (list (Z * G)) :=
  polygons_gdf_parts ←
    combine_parts yolo_labels_dir tile_images_dir tiles_gdf shape;
  pd_concat polygons_gdf_parts.

End Decoders.

(** ** Scripts with effects *)

(** File-system operations other than raster writes, in program order. *)
Inductive Event : Type :=
| MakeOrReplaceDir (dir_path : string)
| Mkdir (path : string)
| SafeDump (path : string) (splits : list string)
| AppendLine (path : string) (line : YoloRecord Q)
| ToFile (path : string).

Record World : Type := MkWorld {
  w_rasters : gmap string Raster;
  w_log : list Event;
}.

(** A script transforms the world and returns or raises; what it did before
    raising stays done. *)
Definition Script (A : Type) : Type := World -> Result A * World.

#[global] Instance Script_ret : MRet Script := fun _ a w => (Ok a, w).
#[global] Instance Script_bind : MBind Script := fun _ _ f m w =>
  match m w with
  | (Ok a, w') => f a w'
  | (Raise e, w') => (Raise e, w')
  end.

Definition lift {A} (r : Result A) : Script A := fun w => (r, w).

Definition emit (e : Event) : Script unit := fun w =>
  (Ok tt, MkWorld (w_rasters w) (w_log w ++ [e])).

Definition write_raster (path : string) (r : Raster) : Script unit := fun w =>
  (Ok tt, MkWorld (<[path := r]> (w_rasters w)) (w_log w)).

Definition on_rasters (f : gmap string Raster -> Result (gmap string Raster))
    : Script unit := fun w =>
  match f (w_rasters w) with
  | Ok files => (Ok tt, MkWorld files (w_log w))
  | Raise e => (Raise e, w)
  end.

(** [for x in xs: body(x)] *)
Fixpoint for_each {A} (xs : list A) (body : A -> Script unit) : Script unit :=
  match xs with
  | [] => mret tt
  | x :: rest => _ ← body x; for_each rest body
  end.

(** [assert cond, msg] *)
Definition py_assert (cond : bool) (msg : string) : Result unit :=
  if cond then Ok tt else Raise (AssertionError msg).

(** [row[key]] on the non-geometry columns. *)
Definition column (key : string) (fields : list (string * string))
    : Result string :=
  match List.find (fun kv => String.eqb (fst kv) key) fields with
  | Some kv => Ok (snd kv)
  | None => Raise (KeyError key)
  end.

(** [Series.unique()]: first occurrences, in order. *)
Fixpoint unique (l : list string) : list string :=
  match l with
  | [] => []
  | x :: rest => x :: List.filter (fun y => negb (String.eqb x y)) (unique rest)
  end.

Fixpoint map_result {A B} (f : A -> Result B) (l : list A) : Result (list B) :=
  match l with
  | [] => mret []
  | x :: rest => y ← f x; ys ← map_result f rest; mret (y :: ys)
  end.

(** ** The tiling pipelines *)

(** A row of the tiles table once the outer tile is attached. The clip drops
    rows that end up empty, and the column assignment leaves those rows
    without a value ([None]). *)
Record Tile (G : Type) : Type := MkTile {
  tile_row : TileRow G;
  tile_outer : option G;
}.
Arguments MkTile {G}.
Arguments tile_row {G}.
Arguments tile_outer {G}.

(** A reference annotation: its class and geometry. *)
Record Annotation (G : Type) : Type := MkAnnotation {
  ann_class : Z;
  ann_geometry : G;
}.
Arguments MkAnnotation {G}.
Arguments ann_class {G}.
Arguments ann_geometry {G}.

Section Pipelines.
Context {G : Type} `{shapely.Geometry G}.

(** [gpd.read_file(path, bbox=bounds).clip(bounds)] on the rows of the file:
    every geometry is clipped to the rectangle and rows left empty are
    dropped. The rectangle is compared with the coordinates as the file has
    them, before any reprojection. *)
Definition clip_areas (rows : list (Area G)) (bounds : BBox Q) : list (Area G) :=
  List.filter (fun row => negb (shapely.is_empty (area_geometry row)))
    (map (fun row => MkArea (area_fields row)
                       (shapely.clip_by_rect (area_geometry row) bounds)) rows).

(** [areas.to_crs(crs)]: every geometry is reprojected, the other columns
    are kept. The scripts call it after the clip. *)
Definition areas_to_crs (areas : list (Area G)) : list (Area G) :=
  map (fun row => MkArea (area_fields row) (shapely.to_crs (area_geometry row)))
      areas.

(** [tiles[inner].buffer(distance=buffer_m, join_style=2).clip(bounds)],
    assigned back as a column. *)
Definition outer_tile (inner : G) (buffer_m : Q) (bounds : BBox Q) : option G :=
  let clipped := shapely.clip_by_rect (shapely.buffer inner buffer_m) bounds in
  if shapely.is_empty clipped then None else Some clipped.

(** Membership in an outer tile; a missing one covers nothing. *)
Definition covers_outer (outer : option G) (p : Point) : bool :=
  match outer with
  | Some g => shapely.covers g p
  | None => false
  end.

Definition add_outer (buffer_m : Q) (bounds : BBox Q) (rows : list (TileRow G))
    : list (Tile G) :=
  map (fun row => MkTile row (outer_tile (tile_inner row) buffer_m bounds)) rows.

Definition assert_msg : string :=
  "Maximum tile size smaller than twice the buffer size.".

(** [tile_orthophoto.main] up to the tiles table: everything before the
    output directory is touched. *)
Definition tile_orthophoto_tiles (orthophoto : GeoTiff G)
    (shapefile : list (Area G)) (max_tile_size_px : Z) (buffer_m : Q)
    : Result (list (Tile G)) :=
  let max_outer_tile_width_px := max_tile_size_px in
  let max_outer_tile_height_px := max_tile_size_px in
  let bounds := geotiff_bounds orthophoto in
  let areas := clip_areas shapefile bounds in
  let areas := areas_to_crs areas in
  let '(scale_x, scale_y) := gt_scale orthophoto in
  let max_outer_tile_width_m := (scale_x * inject_Z max_outer_tile_width_px)%Q in
  _ ← py_assert (Qlt_bool (2 * buffer_m) max_outer_tile_width_m) assert_msg;
  let max_inner_tile_width_m := (max_outer_tile_width_m - 2 * buffer_m)%Q in
  let max_outer_tile_height_m := (scale_y * inject_Z max_outer_tile_height_px)%Q in
  _ ← py_assert (Qlt_bool (2 * buffer_m) max_outer_tile_height_m) assert_msg;
  let max_inner_tile_height_m := (max_outer_tile_height_m - 2 * buffer_m)%Q in
  tiles ← get_tiles areas max_inner_tile_width_m max_inner_tile_height_m;
  mret (add_outer buffer_m bounds tiles).

(** [prepare_yolo_dataset.main] up to the tiles table. *)
Definition prepare_yolo_dataset_tiles (orthophoto : GeoTiff G)
    (split_shapefile : list (Area G))
    (max_outer_tile_width_px max_outer_tile_height_px : Z) (buffer_m : Q)
    : Result (list (Tile G)) :=
  let bounds := geotiff_bounds orthophoto in
  let split_areas := clip_areas split_shapefile bounds in
  let split_areas := areas_to_crs split_areas in
  let '(scale_x, scale_y) := gt_scale orthophoto in
  let max_inner_tile_width_m :=
    (scale_x * inject_Z max_outer_tile_width_px - 2 * buffer_m)%Q in
  let max_inner_tile_height_m :=
    (scale_y * inject_Z max_outer_tile_height_px - 2 * buffer_m)%Q in
  tiles ← get_tiles split_areas max_inner_tile_width_m max_inner_tile_height_m;
  mret (add_outer buffer_m bounds tiles).

(** [tiles["split"].unique()] *)
Definition splits_of (tiles : list (Tile G)) : Result (list string) :=
  values ← map_result (fun t => column "split" (tile_fields (tile_row t))) tiles;
  mret (unique values).

(** Cropping one tile: [tile.boundary] fails on a missing outer tile;
    [crop_polygon] writes the crop, [replace_geotiff_alpha] rewrites it. *)
Definition crop_tile (orthophoto : GeoTiff G) (outdir : string) (row : Tile G)
    : Script (G * string) :=
  let tile_id := tile_id (tile_row row) in
  tile ← lift (match tile_outer row with
               | Some g => Ok g
               | None => Raise AttributeError
               end);
  split ← lift (column "split" (tile_fields (tile_row row)));
  let save_path :=
    (outdir ++ "/images/" ++ split ++ "/tile_" ++ tile_id ++ ".tif")%string in
  _ ← write_raster save_path (gt_crop_polygon orthophoto tile);
  _ ← on_rasters (replace_geotiff_alpha save_path save_path);
  mret (tile, split).

(** [tile_orthophoto.main] *)
Definition tile_orthophoto_main (orthophoto : GeoTiff G)
    (shapefile : list (Area G)) (max_tile_size_px : Z) (buffer_m : Q)
    (outdir : string) : Script unit :=
  tiles ← lift (tile_orthophoto_tiles orthophoto shapefile max_tile_size_px buffer_m);
  _ ← emit (MakeOrReplaceDir outdir);
  let outdir_shapefiles := (outdir ++ "/tiles")%string in
  _ ← emit (Mkdir outdir_shapefiles);
  splits ← lift (splits_of tiles);
  _ ← for_each splits (fun split => emit (Mkdir (outdir ++ "/images/" ++ split)));
  _ ← for_each tiles (fun row => _ ← crop_tile orthophoto outdir row; mret tt);
  _ ← emit (ToFile (outdir_shapefiles ++ "/tiles_inner.shp"));
  emit (ToFile (outdir_shapefiles ++ "/tiles_outer.shp")).

(** [bboxes_ref.clip(tile)]: annotations cut to the tile polygon; rows that
    do not meet it are dropped. *)
Definition clip_annotations (bboxes_ref : list (Annotation G)) (tile : G)
    : list (Annotation G) :=
  List.filter (fun tree => negb (shapely.is_empty (ann_geometry tree)))
    (map (fun tree => MkAnnotation (ann_class tree)
                        (shapely.intersection (ann_geometry tree) tile))
         bboxes_ref).

(** [prepare_yolo_dataset.main]; [bboxes_ref] is the table of reference
    boxes as the script has it after [read_file] and [to_crs]. *)
Definition prepare_yolo_dataset_main (orthophoto : GeoTiff G)
    (split_shapefile : list (Area G)) (bboxes_ref : list (Annotation G))
    (outdir : string) (max_outer_tile_width_px max_outer_tile_height_px : Z)
    (buffer_m : Q) : Script unit :=
  tiles_gdf ← lift (prepare_yolo_dataset_tiles orthophoto split_shapefile
                      max_outer_tile_width_px max_outer_tile_height_px buffer_m);
  _ ← emit (MakeOrReplaceDir outdir);
  splits ← lift (splits_of tiles_gdf);
  _ ← for_each splits (fun split =>
        _ ← emit (Mkdir (outdir ++ "/images/" ++ split));
        emit (Mkdir (outdir ++ "/labels/" ++ split)));
  _ ← emit (SafeDump (outdir ++ "/data.yaml") splits);
  for_each tiles_gdf (fun row =>
    '(tile, split) ← crop_tile orthophoto outdir row;
    for_each (clip_annotations bboxes_ref tile) (fun tree =>
      let bbox := shapely.bounds (ann_geometry tree) in
      let class_id := ann_class tree in
      yolo_format ← lift (convert_to_yolo_format bbox (shapely.bounds tile) class_id);
      emit (AppendLine (outdir ++ "/labels/" ++ split ++ "/tile_"
                          ++ tile_id (tile_row row) ++ ".txt") yolo_format))).

End Pipelines.

(** ** Sample inputs *)

Definition demo_raster : Raster := MkRaster "uint8" [[[0]]; [[0]]; [[0]]].

(** A four-band raster of one row and two pixels; the first pixel is fully
    transparent. *)
Definition demo_rgba : Raster :=
  MkRaster "uint8" [[[10; 20]]; [[30; 40]]; [[50; 60]]; [[0; 255]]].

(** The same pixels stored as signed bytes, with alpha 0 and 127. *)
Definition demo_int8 : Raster :=
  MkRaster "int8" [[[10; 20]]; [[30; 40]]; [[50; 60]]; [[0; 127]]].

(** A north-up raster at one unit per pixel with lower-left corner
    [(x0, y0)], [w] units wide and [h] units high. *)
Definition demo_geotiff (x0 y0 w h : Z) : GeoTiff Rect :=
  MkGeoTiff (h + 1) (w + 1) (1, 1)%Q
    (fun '(px, py) => (inject_Z (x0 + px), inject_Z (y0 + h - py)))
    (fun _ => demo_raster).

Definition demo_orthophoto : GeoTiff Rect := demo_geotiff 0 0 1000 1000.

(** One area covering the whole raster. *)
Definition demo_areas : list (Area Rect) :=
  [MkArea [("split", "train")] (MkRect 0 0 1000 1000)].

(** Two neighbouring inner tiles, and their outer tiles as images. *)
Definition demo_tile_a : TileRow Rect :=
  MkTileRow "0_0" [("split", "train")] (MkRect 0 0 500 500).

Definition demo_tile_b : TileRow Rect :=
  MkTileRow "500_0" [("split", "train")] (MkRect 500 0 1000 500).

Definition demo_images : gmap string (GeoTiff Rect) :=
  {[ "tile_0_0.tif"%string := demo_geotiff 0 0 510 510;
     "tile_500_0.tif"%string := demo_geotiff 490 0 510 510 ]}.

(** One object, the box [[493, 503] x [100, 110]], detected in both. *)
Definition demo_labels : gmap string (list (YoloRecord Q)) :=
  {[ "tile_0_0.txt"%string :=
       [MkYolo 1 (498 # 510) (405 # 510) (10 # 510) (10 # 510)];
     "tile_500_0.txt"%string :=
       [MkYolo 1 (8 # 510) (405 # 510) (10 # 510) (10 # 510)] ]}.

(** The row decoded from the label file of [demo_tile_a]. *)
Definition demo_detection : Z * Rect :=
  (1, MkRect (256458600 # 520200) (52020000 # 520200)
             (261660600 # 520200) (57222000 # 520200)).

(** ** Label files as text *)

(** The [str] methods and number constructors the decoders call on a line
    of a label file. Numbers are exact: a field that [float] reads as
    [nan] or [inf] has no counterpart here. *)
Class PyText : Type := {
  (** [line.strip().split()]: the fields of a line *)
  str_split : string -> list string;
  (** [int(s)]; [None] where Python raises [ValueError] *)
  int_of_str : string -> option Z;
  (** [float(s)]; [None] where Python raises [ValueError] *)
  float_of_str : string -> option Q;
  (** [repr(s)], as the error messages quote the field *)
  py_repr : string -> string;
}.

Section LabelText.
Context {text : PyText} {G : Type} {geom : shapely.Geometry G}.

(** [parts[i]] *)
Definition py_getitem (parts : list string) (i : nat) : Result string :=
  match parts !! i with
  | Some s => Ok s
  | None => Raise IndexError
  end.

Definition py_int_str (s : string) : Result Z :=
  match int_of_str s with
  | Some n => Ok n
  | None =>
      Raise (ValueError ("invalid literal for int() with base 10: " ++ py_repr s))
  end.

Definition py_float_str (s : string) : Result Q :=
  match float_of_str s with
  | Some x => Ok x
  | None => Raise (ValueError ("could not convert string to float: " ++ py_repr s))
  end.

(** The fields the loop body of either decoder reads from one line, in the
    order it reads them. *)
Definition parse_line (line : string) : Result (YoloRecord Q) :=
  let parts := str_split line in
  p0 ← py_getitem parts 0; class_id ← py_int_str p0;
  p1 ← py_getitem parts 1; x_center ← py_float_str p1;
  p2 ← py_getitem parts 2; y_center ← py_float_str p2;
  p3 ← py_getitem parts 3; box_width ← py_float_str p3;
  p4 ← py_getitem parts 4; box_height ← py_float_str p4;
  mret (MkYolo class_id x_center y_center box_width box_height).

(** [for line in file]: the first line that fails ends the loop, and the
    polygons built from the lines before it are lost with it. *)
Definition read_lines (file : list string) : Result (list (YoloRecord Q)) :=
  map_result parse_line file.

(** The frame built for one tile from the text of its label file: the shape
    is tested before the file is opened. *)
Definition tile_detections_text (shape : string) (orthophoto : GeoTiff G)
    (file : list string) : Result (list (Z * G)) :=
  let bounds := geotiff_bounds orthophoto in
  '(classes, polygons) ←
    (if String.eqb shape "oval"
     then lines ← read_lines file; Ok (ovals_from_yolo_output lines bounds)
     else if String.eqb shape "rectangle"
          then lines ← read_lines file; Ok (bboxes_from_yolo_output lines bounds)
          else Raise (shape_error shape));
  mret (zip classes polygons).

(** The loop of [combine_yolo_outputs.main] over label files as text. *)
Fixpoint combine_parts_text (yolo_labels_dir : gmap string (list string))
    (tile_images_dir : gmap string (GeoTiff G))
    (tiles_gdf : list (TileRow G)) (shape : string)
    : Result (list (list (Z * G))) :=
  match tiles_gdf with
  | [] => mret []
  | tile :: rest =>
      match tile_images_dir !! geotiff_name (tile_id tile),
            yolo_labels_dir !! labels_name (tile_id tile) with
      | Some orthophoto, Some file =>
          polygons_gdf_part ← tile_detections_text shape orthophoto file;
          let polygons_gdf_part_clipped :=
            clip_by_centroid (tile_inner tile) polygons_gdf_part in
          parts ← combine_parts_text yolo_labels_dir tile_images_dir rest shape;
          mret (polygons_gdf_part_clipped :: parts)
      | _, _ => combine_parts_text yolo_labels_dir tile_images_dir rest shape
      end
  end.

(** [combine_yolo_outputs.main] over label files as text. *)
Definition combine_main_text (yolo_labels_dir : gmap string (list string))
    (tile_images_dir : gmap string (GeoTiff G))
    (tiles_gdf : list (TileRow G)) (shape : string) : Result (list (Z * G)) :=
  polygons_gdf_parts ←
    combine_parts_text yolo_labels_dir tile_images_dir tiles_gdf shape;
  pd_concat polygons_gdf_parts.


End LabelText.

(** ** Predicates of the statements *)

(** Two records with the same class and equal numbers. *)
Definition yolo_eqQ (a b : YoloRecord Q) : Prop :=
  yolo_class a = yolo_class b /\
  (yolo_x_center a == yolo_x_center b /\ yolo_y_center a == yolo_y_center b /\
   yolo_width a == yolo_width b /\ yolo_height a == yolo_height b)%Q.

(** A label whose box, centre plus and minus half the size, lies in the unit
    square. *)
Definition normalized (parts : YoloRecord Q) : Prop :=
  (0 <= yolo_width parts /\ 0 <= yolo_height parts /\
   0 <= yolo_x_center parts - yolo_width parts / 2 /\
   yolo_x_center parts + yolo_width parts / 2 <= 1 /\
   0 <= yolo_y_center parts - yolo_height parts / 2 /\
   yolo_y_center parts + yolo_height parts / 2 <= 1)%Q.

(** [a] lies in [b], edges included, and [a] is well ordered. *)
Definition bbox_within (a b : BBox Q) : Prop :=
  let '(x1, y1, x2, y2) := a in
  let '(bx1, by1, bx2, by2) := b in
  (bx1 <= x1 /\ x1 <= x2 /\ x2 <= bx2 /\ by1 <= y1 /\ y1 <= y2 /\ y2 <= by2)%Q.

(** The map [x -> k x + d] applied to both axes of a box. *)
Definition bbox_affine (k dx dy : Q) (b : BBox Q) : BBox Q :=
  let '(x1, y1, x2, y2) := b in
  (k * x1 + dx, k * y1 + dy, k * x2 + dx, k * y2 + dy)%Q.

(** The divisions of [get_tiles] all have a non-zero divisor. *)
Definition grid_ok (b : BBox Q) (max_tile_width_m max_tile_height_m : Q) : Prop :=
  let '(min_x, min_y, max_x, max_y) := b in
  ~ (max_tile_width_m == 0)%Q /\ ~ (max_tile_height_m == 0)%Q /\
  Qceiling ((max_x - min_x) / max_tile_width_m) <> 0 /\
  Qceiling ((max_y - min_y) / max_tile_height_m) <> 0.

(** The number of tiles of an area: [len(range(n_cols)) * len(range(n_rows))]. *)
Definition tile_count (b : BBox Q) (max_tile_width_m max_tile_height_m : Q) : nat :=
  let '(min_x, min_y, max_x, max_y) := b in
  (Z.to_nat (Qceiling ((max_x - min_x) / max_tile_width_m)) *
   Z.to_nat (Qceiling ((max_y - min_y) / max_tile_height_m)))%nat.

(** Further documented behaviour of shapely, about boxes and bounds: a box
    of positive width and height covers the points of its rectangle, edges
    included; a geometry lies within its bounds; and a non-empty
    intersection has well-ordered bounds within the bounds of its second
    operand. *)
Class BoundsLaws (G : Type) `{shapely.Geometry G} : Prop := {
  covers_box : forall x1 y1 x2 y2 p,
    (x1 < x2)%Q -> (y1 < y2)%Q ->
    shapely.covers (shapely.box x1 y1 x2 y2) p = in_bbox (x1, y1, x2, y2) p;
  covers_in_bounds : forall g p,
    shapely.covers g p = true -> in_bbox (shapely.bounds g) p = true;
  bounds_intersection : forall a b,
    shapely.is_empty (shapely.intersection a b) = false ->
    bbox_within (shapely.bounds (shapely.intersection a b)) (shapely.bounds b);
}.



(** The log of [w'] is the log of [w] followed by events that all satisfy
    [P]. *)
Definition appended (P : Event -> Prop) (w w' : World) : Prop :=
  exists evs, w_log w' = w_log w ++ evs /\ Forall P evs.

(** A label line, if the event is one, is normalized. *)
Definition label_ok (e : Event) : Prop :=
  match e with
  | AppendLine _ line => normalized line
  | _ => True
  end.

(** The file at [path] holds a raster of three bands. *)
Definition three_band_at (path : string) (w : World) : Prop :=
  exists r, w_rasters w !! path = Some r /\ raster_count r = 3.

(** ** More sample inputs *)

(** A four-band raster of one row and two pixels, none of them fully
    transparent. *)
Definition demo_opaque : Raster :=
  MkRaster "uint8" [[[10; 20]]; [[30; 40]]; [[50; 60]]; [[255; 128]]].

(** One reference box inside the first tile of the sample raster. *)
Definition demo_bboxes_ref : list (Annotation Rect) :=
  [MkAnnotation 2 (MkRect 100 100 110 120)].

(** A reader for the sample files: fields separated by single spaces,
    integers in decimal digits, and numbers written as integers. *)
Fixpoint split_spaces (word line : string) : list string :=
  match line with
  | EmptyString => if String.eqb word "" then [] else [word]
  | String c rest =>
      if Ascii.eqb c (Ascii.ascii_of_nat 32)
      then (if String.eqb word "" then [] else [word]) ++ split_spaces "" rest
      else split_spaces (word ++ String c "") rest
  end.

Definition demo_int_of_str (s : string) : option Z :=
  match NilZero.int_of_string s with
  | Some n => Some (Z.of_int n)
  | None => None
  end.

Definition demo_text : PyText := {|
  str_split := split_spaces "";
  int_of_str := demo_int_of_str;
  float_of_str s := match demo_int_of_str s with
                    | Some n => Some (inject_Z n)
                    | None => None
                    end;
  py_repr s := ("'" ++ s ++ "'")%string;
|}.

(** * Properties *)

(** ** Exact arithmetic of the converters *)

Lemma py_truediv_Q_ok (a b : Q) :
  ~ (b == 0)%Q -> py_truediv a b = Ok (a / b)%Q.
Proof.
  intros Hb. unfold py_truediv. cbn.
  destruct (Qeq_bool b 0) eqn:E; [|reflexivity].
  apply Qeq_bool_iff in E. contradiction.
Qed.

Lemma py_truediv_Q_zero (a b : Q) :
  (b == 0)%Q -> py_truediv a b = Raise ZeroDivisionError.
Proof.
  intros Hb. unfold py_truediv. cbn.
  apply Qeq_bool_iff in Hb. now rewrite Hb.
Qed.

Lemma convert_to_yolo_format_Q (ox1 oy1 ox2 oy2 ix1 iy1 ix2 iy2 : Q) (c : Z) :
  ~ (ix2 - ix1 == 0)%Q -> ~ (iy2 - iy1 == 0)%Q ->
  convert_to_yolo_format (ox1, oy1, ox2, oy2) (ix1, iy1, ix2, iy2) c =
  Ok (MkYolo c
        (((ox1 - ix1) / (ix2 - ix1) + (ox2 - ix1) / (ix2 - ix1)) / 2)%Q
        (((iy2 - oy2) / (iy2 - iy1) + (iy2 - oy1) / (iy2 - iy1)) / 2)%Q
        ((ox2 - ix1) / (ix2 - ix1) - (ox1 - ix1) / (ix2 - ix1))%Q
        ((iy2 - oy1) / (iy2 - iy1) - (iy2 - oy2) / (iy2 - iy1))%Q).
Proof.
  intros Hw Hh. unfold convert_to_yolo_format. cbn [fsub PyFloat_Q].
  rewrite !py_truediv_Q_ok by assumption. reflexivity.
Qed.

(** ** Round trip (C1) *)

(** C1, as amended: over exact rational arithmetic, for every object box
    strictly inside the image box, [convert_to_yolo_format] followed by the
    decoding of [bboxes_from_yolo_output] against the same image bounds
    succeeds and gives back the four coordinates of the object box exactly. *)
Theorem yolo_round_trip_exact (b img : BBox Q) (class_id : Z) :
  strictly_insideQ b img ->
  exists b', yolo_round_trip b img class_id = Ok b' /\ bbox_eqQ b' b.
Proof.
  destruct b as [[[ox1 oy1] ox2] oy2], img as [[[ix1 iy1] ix2] iy2].
  intros (H1 & H2 & H3 & H4 & H5 & H6).
  assert (Hw : ~ (ix2 - ix1 == 0)%Q) by lra.
  assert (Hh : ~ (iy2 - iy1 == 0)%Q) by lra.
  unfold yolo_round_trip. rewrite convert_to_yolo_format_Q by assumption.
  eexists. split; [reflexivity|].
  cbn. repeat split; field; assumption.
Qed.

(** The box [(1, 2, 3, 5)] in the image [(0, 0, 10, 8)]. *)
Lemma yolo_round_trip_exact_witness :
  exists b', yolo_round_trip (1, 2, 3, 5)%Q (0, 0, 10, 8)%Q 7 = Ok b'
             /\ bbox_eqQ b' (1, 2, 3, 5)%Q.
Proof.
  apply (yolo_round_trip_exact (1, 2, 3, 5)%Q (0, 0, 10, 8)%Q 7).
  cbn. repeat split; lra.
Defined.

(** C1 as stated fails in binary64: in the image [[-2^30, 2^30]^2] the box
    [[2^-25, 2^-24]^2] lies strictly inside, and the round trip returns
    [(0, 0, 0, 0)], which is not within [1e-9] of it in relative terms:
    adding [2^30] to a coordinate of the box rounds it away. *)
Lemma round_trip_binary64_counterexample :
  let img : BBox float := (-0x1p30, -0x1p30, 0x1p30, 0x1p30)%float in
  let b : BBox float := (0x1p-25, 0x1p-25, 0x1p-24, 0x1p-24)%float in
  strictly_inside64 b img = true /\
  yolo_round_trip b img 0 = Ok (0, 0, 0, 0)%float /\
  ~ round_trip_within rel_tol_1e9 b img.
Proof.
  split; [vm_compute; reflexivity|]. split; [vm_compute; reflexivity|].
  intros (b' & Hrt & Hclose).
  vm_compute in Hrt. injection Hrt as <-.
  vm_compute in Hclose. discriminate.
Qed.

(** ** Vertical flip (C9) *)

Lemma Qdiv_bounds (t h lo hi : Q) :
  (0 < h)%Q -> (lo * h <= t)%Q -> (t <= hi * h)%Q ->
  (lo <= t / h /\ t / h <= hi)%Q.
Proof.
  intros Hh Hlo Hhi. split.
  - apply Qle_shift_div_l; assumption.
  - apply Qle_shift_div_r; assumption.
Qed.



(** ** Grid coverage (C3) *)

Lemma Qlt_bool_iff (a b : Q) : Qlt_bool a b = true <-> (a < b)%Q.
Proof.
  unfold Qlt_bool. rewrite negb_true_iff. split.
  - intros E. apply Qnot_le_lt. intros Hle. apply Qle_bool_iff in Hle. congruence.
  - intros Hlt. destruct (Qle_bool b a) eqn:E; [|reflexivity].
    apply Qle_bool_iff in E. lra.
Qed.

Lemma in_bbox_iff (x1 y1 x2 y2 x y : Q) :
  in_bbox (x1, y1, x2, y2) (x, y) = true <->
  (x1 <= x /\ x <= x2 /\ y1 <= y /\ y <= y2)%Q.
Proof.
  unfold in_bbox. rewrite !andb_true_iff, !Qle_bool_iff. tauto.
Qed.

Lemma in_interior_iff (x1 y1 x2 y2 x y : Q) :
  in_interior (x1, y1, x2, y2) (x, y) = true <->
  (x1 < x /\ x < x2 /\ y1 < y /\ y < y2)%Q.
Proof.
  unfold in_interior. rewrite !andb_true_iff, !Qlt_bool_iff. tauto.
Qed.

Lemma In_py_range (n i : Z) : In i (py_range n) <-> 0 <= i < n.
Proof.
  unfold py_range. rewrite in_map_iff. split.
  - intros (k & <- & Hk). apply in_seq in Hk. lia.
  - intros Hi. exists (Z.to_nat i). split; [lia|]. apply in_seq. lia.
Qed.

Lemma inject_Z_lt_succ (i n : Z) : i < n -> (inject_Z i + 1 <= inject_Z n)%Q.
Proof.
  intros Hlt. change 1%Q with (inject_Z 1). rewrite <- inject_Z_plus.
  rewrite <- Zle_Qle. lia.
Qed.

Lemma inject_Z_nonneg (i : Z) : 0 <= i -> (0 <= inject_Z i)%Q.
Proof. intros Hi. change 0%Q with (inject_Z 0). now rewrite <- Zle_Qle. Qed.

(** The ceiling of a positive ratio is at least one. *)
Lemma Qceiling_pos (x : Q) : (0 < x)%Q -> 1 <= Qceiling x.
Proof.
  intros Hx. pose proof (Qle_ceiling x) as Hc.
  assert (Hlt : (inject_Z 0 < inject_Z (Qceiling x))%Q)
    by (change (inject_Z 0) with 0%Q; lra).
  rewrite <- Zlt_Qlt in Hlt. lia.
Qed.

Lemma Qdiv_pos (a b : Q) : (0 < a)%Q -> (0 < b)%Q -> (0 < a / b)%Q.
Proof. intros Ha Hb. apply Qlt_shift_div_l; lra. Qed.

(** One axis: [n] equal steps of [t] cover [[lo, lo + n t]]. *)
Lemma steps_cover (lo t x : Q) (n : Z) :
  (0 < t)%Q -> 1 <= n ->
  (lo <= x /\ x <= lo + inject_Z n * t)%Q <->
  exists i, 0 <= i < n /\
    (lo + inject_Z i * t <= x /\ x <= lo + (inject_Z i + 1) * t)%Q.
Proof.
  intros Ht Hn. split.
  - intros [Hlo Hhi].
    set (k := Qfloor ((x - lo) / t)).
    assert (Hk1 : (inject_Z k * t <= x - lo)%Q).
    { pose proof (Qfloor_le ((x - lo) / t)) as Hf. fold k in Hf.
      apply (Qmult_le_r _ _ t) in Hf; [|assumption].
      assert (E : ((x - lo) / t * t == x - lo)%Q) by (field; lra).
      rewrite E in Hf. exact Hf. }
    assert (Hk2 : (x - lo < (inject_Z k + 1) * t)%Q).
    { pose proof (Qlt_floor ((x - lo) / t)) as Hf. fold k in Hf.
      rewrite inject_Z_plus in Hf. change (inject_Z 1) with 1%Q in Hf.
      apply (Qmult_lt_r _ _ t) in Hf; [|assumption].
      assert (E : ((x - lo) / t * t == x - lo)%Q) by (field; lra).
      rewrite E in Hf. exact Hf. }
    assert (Hk0 : 0 <= k).
    { unfold k. rewrite <- (Qfloor_Z 0). apply Qfloor_resp_le.
      change (inject_Z 0) with 0%Q.
      apply Qle_shift_div_l; [assumption|]. lra. }
    destruct (Z_lt_le_dec k n) as [Hlt | Hge].
    + exists k. split; [lia|]. split; lra.
    + exists (n - 1). split; [lia|].
      assert (E : (inject_Z (n - 1) == inject_Z n - 1)%Q).
      { unfold Z.sub. rewrite inject_Z_plus.
        change (inject_Z (- (1))) with (- (1))%Q. ring. }
      rewrite E.
      assert (Hkn : (inject_Z n <= inject_Z k)%Q) by (now rewrite <- Zle_Qle).
      split; [nra | lra].
  - intros (i & Hi & H1 & H2).
    pose proof (inject_Z_nonneg i ltac:(lia)) as H0.
    pose proof (inject_Z_lt_succ i n ltac:(lia)) as Hs.
    split; nra.
Qed.

(** One axis: the interior of step [i] misses every other step. *)
Lemma steps_disjoint (lo t x : Q) (i i' : Z) :
  (0 < t)%Q -> i <> i' ->
  (lo + inject_Z i * t < x /\ x < lo + (inject_Z i + 1) * t)%Q ->
  ~ (lo + inject_Z i' * t <= x /\ x <= lo + (inject_Z i' + 1) * t)%Q.
Proof.
  intros Ht Hne [H1 H2] [H3 H4].
  destruct (Z_lt_le_dec i i') as [Hlt | Hge].
  - pose proof (inject_Z_lt_succ i i' Hlt). nra.
  - assert (Hlt : i' < i) by lia.
    pose proof (inject_Z_lt_succ i' i Hlt). nra.
Qed.

(** Splitting a length [w] into [ceil (w / m)] equal steps. *)
Lemma ceil_steps (w m : Q) :
  (0 < w)%Q -> (0 < m)%Q ->
  1 <= Qceiling (w / m) /\
  (1 <= inject_Z (Qceiling (w / m)))%Q /\
  (0 < w / inject_Z (Qceiling (w / m)))%Q /\
  (w / inject_Z (Qceiling (w / m)) <= m)%Q /\
  (inject_Z (Qceiling (w / m)) * (w / inject_Z (Qceiling (w / m))) == w)%Q.
Proof.
  intros Hw Hm.
  assert (Hpos : (0 < w / m)%Q) by (apply Qdiv_pos; assumption).
  pose proof (Qle_ceiling (w / m)) as Hle.
  pose proof (Qceiling_pos _ Hpos) as Hn.
  apply (Qmult_le_r _ _ m) in Hle; [|assumption].
  assert (E : (w / m * m == w)%Q) by (field; lra).
  rewrite E in Hle. clear E Hpos.
  remember (Qceiling (w / m)) as n eqn:En. clear En.
  assert (Hn' : (1 <= inject_Z n)%Q).
  { pose proof (inject_Z_lt_succ 0 n ltac:(lia)) as E.
    change (inject_Z 0) with 0%Q in E. lra. }
  split; [exact Hn|]. split; [exact Hn'|]. clear Hn.
  split; [apply Qdiv_pos; lra|].
  split; [apply Qle_shift_div_r; lra|].
  field. lra.
Qed.

Lemma grid_dims_ok (min_x min_y max_x max_y mw mh : Q) :
  (min_x < max_x)%Q -> (min_y < max_y)%Q -> (0 < mw)%Q -> (0 < mh)%Q ->
  grid_dims (min_x, min_y, max_x, max_y) mw mh =
  Ok (Qceiling ((max_x - min_x) / mw), Qceiling ((max_y - min_y) / mh),
      ((max_x - min_x) / inject_Z (Qceiling ((max_x - min_x) / mw)))%Q,
      ((max_y - min_y) / inject_Z (Qceiling ((max_y - min_y) / mh)))%Q).
Proof.
  intros Hx Hy Hmw Hmh. unfold grid_dims.
  destruct (ceil_steps (max_x - min_x) mw ltac:(lra) Hmw) as (_ & Hc & _).
  destruct (ceil_steps (max_y - min_y) mh ltac:(lra) Hmh) as (_ & Hr & _).
  rewrite (py_truediv_Q_ok _ mw) by (clear Hc Hr; lra). cbn [mbind Result_bind].
  rewrite (py_truediv_Q_ok _ mh) by (clear Hc Hr; lra). cbn [mbind Result_bind].
  remember (Qceiling ((max_x - min_x) / mw)) as n_cols eqn:Ec. clear Ec.
  remember (Qceiling ((max_y - min_y) / mh)) as n_rows eqn:Er. clear Er.
  rewrite (py_truediv_Q_ok _ (inject_Z n_cols)) by lra. cbn [mbind Result_bind].
  rewrite (py_truediv_Q_ok _ (inject_Z n_rows)) by lra. reflexivity.
Qed.

Section GridTheorems.
Context {G : Type} {geom : shapely.Geometry G}.

(** On a single area the generator yields the tiles of that area. *)
Lemma get_tiles_single (row : Area G) (mw mh : Q) :
  get_tiles [row] mw mh = get_tiles_row row mw mh.
Proof.
  cbn [get_tiles]. destruct (get_tiles_row row mw mh) as [tiles | e];
    cbn [mbind Result_bind mret Result_ret]; [|reflexivity].
  now rewrite app_nil_r.
Qed.

(** The tiles of one area of positive width and height. *)
Lemma get_tiles_row_spec (row : Area G) (mw mh : Q) :
  positive_bounds row -> (0 < mw)%Q -> (0 < mh)%Q ->
  get_tiles_row row mw mh = Ok (spec_tiles row mw mh).
Proof.
  unfold positive_bounds, get_tiles_row, spec_tiles.
  destruct (shapely.bounds (area_geometry row)) as [[[min_x min_y] max_x] max_y].
  intros [Hx Hy] Hmw Hmh. rewrite grid_dims_ok by assumption. reflexivity.
Qed.

(** The grid over one bounding box of positive width and height. *)
Lemma grid_facts (min_x min_y max_x max_y mw mh : Q) :
  (min_x < max_x)%Q -> (min_y < max_y)%Q -> (0 < mw)%Q -> (0 < mh)%Q ->
  let n_cols := Qceiling ((max_x - min_x) / mw) in
  let n_rows := Qceiling ((max_y - min_y) / mh) in
  let tw := ((max_x - min_x) / inject_Z n_cols)%Q in
  let th := ((max_y - min_y) / inject_Z n_rows)%Q in
  let grid := list_prod (py_range n_cols) (py_range n_rows) in
  let cell (ij : Z * Z) := grid_cell min_x min_y tw th (fst ij) (snd ij) in
  1 <= n_cols /\ 1 <= n_rows /\
  (tw <= mw /\ th <= mh)%Q /\
  (forall ij, let '(x1, y1, x2, y2) := cell ij in
     (x2 - x1 == tw /\ y2 - y1 == th)%Q) /\
  (forall p, in_bbox (min_x, min_y, max_x, max_y) p = true <->
             exists ij, In ij grid /\ in_bbox (cell ij) p = true) /\
  (forall ij ij' p, In ij grid -> In ij' grid -> ij <> ij' ->
     in_interior (cell ij) p = true -> in_bbox (cell ij') p = false).
Proof.
  intros Hx Hy Hmw Hmh n_cols n_rows tw th grid cell.
  destruct (ceil_steps (max_x - min_x) mw ltac:(lra) Hmw)
    as (Hc & Hc' & Htw & Htw' & Ew).
  destruct (ceil_steps (max_y - min_y) mh ltac:(lra) Hmh)
    as (Hr & Hr' & Hth & Hth' & Eh).
  fold n_cols in Hc, Hc', Htw, Htw', Ew. fold tw in Htw, Htw', Ew.
  fold n_rows in Hr, Hr', Hth, Hth', Eh. fold th in Hth, Hth', Eh.
  clearbody tw th. clearbody n_cols n_rows.
  split; [exact Hc|]. split; [exact Hr|]. split; [split; assumption|].
  split; [|split].
  - intros [i j]. unfold cell, grid_cell. cbn [fst snd]. split; ring.
  - intros [x y]. rewrite in_bbox_iff. split.
    + intros (H1 & H2 & H3 & H4).
      destruct (proj1 (steps_cover min_x tw x n_cols Htw Hc)) as (i & Hi & Hix);
        [split; lra|].
      destruct (proj1 (steps_cover min_y th y n_rows Hth Hr)) as (j & Hj & Hjy);
        [split; lra|].
      exists (i, j). split.
      * apply in_prod; now apply In_py_range.
      * unfold cell, grid_cell. cbn [fst snd]. apply in_bbox_iff. tauto.
    + intros ([i j] & Hin & Hp). apply in_prod_iff in Hin as [Hi Hj].
      apply In_py_range in Hi, Hj.
      unfold cell, grid_cell in Hp. cbn [fst snd] in Hp.
      apply in_bbox_iff in Hp as (H1 & H2 & H3 & H4).
      pose proof (proj2 (steps_cover min_x tw x n_cols Htw Hc)
                    (ex_intro _ i (conj Hi (conj H1 H2)))) as Hxx.
      pose proof (proj2 (steps_cover min_y th y n_rows Hth Hr)
                    (ex_intro _ j (conj Hj (conj H3 H4)))) as Hyy.
      lra.
  - intros [i j] [i' j'] [x y] _ _ Hne Hint.
    unfold cell, grid_cell in *. cbn [fst snd] in *.
    apply in_interior_iff in Hint as (H1 & H2 & H3 & H4).
    destruct (in_bbox _ _) eqn:E; [|reflexivity]. exfalso.
    apply in_bbox_iff in E as (H5 & H6 & H7 & H8).
    destruct (Z.eq_dec i i') as [-> | Hi].
    + assert (Hj : j <> j') by congruence.
      apply (steps_disjoint min_y th y j j' Hth Hj); split; assumption.
    + apply (steps_disjoint min_x tw x i i' Htw Hi); split; assumption.
Qed.

(** C3, as amended: in exact arithmetic, for positive maximum tile
    dimensions [mw], [mh] and areas whose bounding boxes have positive width
    and height, [get_tiles] returns, area after area, one tile per cell of
    the grid of [n_cols = ceil (W / mw)] by [n_rows = ceil (H / mh)] cells of
    the area, each the cell intersected with the area. For every area both
    counts are at least one; every cell is [W / n_cols] wide and
    [H / n_rows] high, which is at most [mw] and [mh]; a point lies in the
    bounding box exactly when it lies in some cell; and the interior of a
    cell meets no other cell. *)
Theorem grid_coverage (areas : list (Area G)) (mw mh : Q) :
  (0 < mw)%Q -> (0 < mh)%Q ->
  (forall row, In row areas -> positive_bounds row) ->
  get_tiles areas mw mh = Ok (concat (map (fun row => spec_tiles row mw mh) areas)) /\
  forall row min_x min_y max_x max_y, In row areas ->
    shapely.bounds (area_geometry row) = (min_x, min_y, max_x, max_y) ->
    let n_cols := Qceiling ((max_x - min_x) / mw) in
    let n_rows := Qceiling ((max_y - min_y) / mh) in
    let tw := ((max_x - min_x) / inject_Z n_cols)%Q in
    let th := ((max_y - min_y) / inject_Z n_rows)%Q in
    let grid := list_prod (py_range n_cols) (py_range n_rows) in
    let cell (ij : Z * Z) := grid_cell min_x min_y tw th (fst ij) (snd ij) in
    spec_tiles row mw mh = map (make_tile row min_x min_y tw th) grid /\
    (forall ij, In ij grid ->
       tile_inner (make_tile row min_x min_y tw th ij) =
       let '(x1, y1, x2, y2) := cell ij in
       shapely.intersection (shapely.box x1 y1 x2 y2) (area_geometry row)) /\
    1 <= n_cols /\ 1 <= n_rows /\
    (tw <= mw /\ th <= mh)%Q /\
    (forall ij, let '(x1, y1, x2, y2) := cell ij in
       (x2 - x1 == tw /\ y2 - y1 == th)%Q) /\
    (forall p, in_bbox (min_x, min_y, max_x, max_y) p = true <->
               exists ij, In ij grid /\ in_bbox (cell ij) p = true) /\
    (forall ij ij' p, In ij grid -> In ij' grid -> ij <> ij' ->
       in_interior (cell ij) p = true -> in_bbox (cell ij') p = false).
Proof.
  intros Hmw Hmh Hpos. split.
  - induction areas as [|row rest IH]; cbn [get_tiles map concat]; [reflexivity|].
    rewrite (get_tiles_row_spec row mw mh (Hpos row (or_introl eq_refl)) Hmw Hmh).
    cbn [mbind Result_bind].
    rewrite IH by (intros r Hr; apply Hpos; now right). reflexivity.
  - intros row min_x min_y max_x max_y Hin Hb.
    pose proof (Hpos row Hin) as Hrow. unfold positive_bounds in Hrow.
    rewrite Hb in Hrow. destruct Hrow as [Hx Hy].
    intros n_cols n_rows tw th grid cell.
    split; [unfold spec_tiles; rewrite Hb; reflexivity|].
    split; [intros [i j] _; reflexivity|].
    exact (grid_facts min_x min_y max_x max_y mw mh Hx Hy Hmw Hmh).
Qed.

End GridTheorems.

(** Two areas with tiles of at most 600: a 2 x 2 grid over
    [(0, 0, 1000, 1000)], then a single cell over [(1000, 0, 1500, 300)]. *)
Lemma grid_coverage_witness :
  exists tiles,
    get_tiles [MkArea [("split", "train")] (MkRect 0 0 1000 1000);
               MkArea [("split", "val")] (MkRect 1000 0 1500 300)] 600 600
    = Ok tiles /\
    map tile_id tiles = ["0_0"; "0_500"; "500_0"; "500_500"; "1000_0"]%string.
Proof.
  eexists. split.
  - apply (grid_coverage [MkArea [("split", "train")] (MkRect 0 0 1000 1000);
                          MkArea [("split", "val")] (MkRect 1000 0 1500 300)]
             600 600).
    + reflexivity.
    + reflexivity.
    + intros row [<- | [<- | []]]; split; reflexivity.
  - vm_compute. reflexivity.
Defined.

(** C3 as stated fails in the arithmetic of the code. Over the box
    [(0, 0, 1, 1)] with a maximum width of [0.0205] the code makes 49
    columns of width [fl (1 / 49)], and the right edge of the last column,
    [0 + 49 * fl (1 / 49)], is [0.99999999999999989], short of [max_x = 1]:
    points of the box with [x = 1] are in no cell. Over a box of width
    [15545.657430792899] with a maximum width of [444.16164087979706] the
    code makes 35 columns of width [444.16164087979712], more than the
    maximum. *)
Lemma grid_coverage_binary64_counterexample :
  let mw := 0x1.4fdf3b645a1cbp-6%float in
  let tw := 0x1.4e5e0a72f0539p-6%float in
  let W' := 0x1.e5cd426b13571p+13%float in
  let mw' := 0x1.bc29614bf46cdp+8%float in
  let tw' := 0x1.bc29614bf46cep+8%float in
  grid_dims64 (0, 0, 1, 1)%float mw 1 = Ok (49, 1, tw, 1%float) /\
  grid_cell64 0 0 tw 1 48 0
    = (0x1.f58d0fac687d6p-1, 0, 0x1.fffffffffffffp-1, 1)%float /\
  PrimFloat.ltb 0x1.fffffffffffffp-1 1 = true /\
  grid_dims64 (0, 0, W', 1)%float mw' 1 = Ok (35, 1, tw', 1%float) /\
  PrimFloat.ltb mw' tw' = true.
Proof. vm_compute. repeat split. Qed.

(** ** Tile identifiers (C5) *)



Section TileIds.
Context {G : Type} {geom : shapely.Geometry G}.



End TileIds.



(** ** Degenerate areas (C6) *)

Section Degenerate.
Context {G : Type} {geom : shapely.Geometry G}.

(** A zero-width or zero-height bounding box gives a zero count, and the
    division by it raises. *)
Lemma grid_dims_degenerate (min_x min_y max_x max_y mw mh : Q) :
  (max_x - min_x == 0 \/ max_y - min_y == 0)%Q ->
  grid_dims (min_x, min_y, max_x, max_y) mw mh = Raise ZeroDivisionError.
Proof.
  intros Hdeg. unfold grid_dims, py_truediv. cbn [fis_zero PyFloat_Q fdiv].
  destruct (Qeq_bool mw 0) eqn:Emw; [reflexivity|]. cbn [mbind Result_bind].
  destruct (Qeq_bool mh 0) eqn:Emh; [reflexivity|]. cbn [mbind Result_bind].
  destruct Hdeg as [Hw | Hh].
  - assert (E : Qceiling ((max_x - min_x) / mw) = 0).
    { rewrite <- (Qceiling_Z 0). apply Qceiling_comp. rewrite Hw.
      change (inject_Z 0) with 0%Q. unfold Qdiv. ring. }
    rewrite E. reflexivity.
  - destruct (Qeq_bool (inject_Z (Qceiling ((max_x - min_x) / mw))) 0);
      [reflexivity|]. cbn [mbind Result_bind].
    assert (E : Qceiling ((max_y - min_y) / mh) = 0).
    { rewrite <- (Qceiling_Z 0). apply Qceiling_comp. rewrite Hh.
      change (inject_Z 0) with 0%Q. unfold Qdiv. ring. }
    rewrite E. reflexivity.
Qed.

Lemma get_tiles_row_degenerate (row : Area G) (min_x min_y max_x max_y mw mh : Q) :
  shapely.bounds (area_geometry row) = (min_x, min_y, max_x, max_y) ->
  (max_x - min_x == 0 \/ max_y - min_y == 0)%Q ->
  get_tiles_row row mw mh = Raise ZeroDivisionError.
Proof.
  intros Hb Hdeg. unfold get_tiles_row. rewrite Hb.
  now rewrite grid_dims_degenerate.
Qed.

End Degenerate.

(** C6 fails on the code: for an area whose bounding box is [(0, 0, 0, 10)]
    (zero width) or [(0, 0, 10, 0)] (zero height), the count of columns or
    rows is [ceil 0 = 0] and [get_tiles] raises [ZeroDivisionError] instead
    of producing a 1 x 1 grid. *)
Theorem get_tiles_degenerate_area_raises :
  Qceiling ((0 - 0) / 600) = 0 /\
  grid_dims (0, 0, 0, 10)%Q 600 600 = Raise ZeroDivisionError /\
  get_tiles [MkArea [("split", "train")] (MkRect 0 0 0 10)] 600 600
    = Raise ZeroDivisionError /\
  get_tiles [MkArea [("split", "train")] (MkRect 0 0 10 0)] 600 600
    = Raise ZeroDivisionError.
Proof. repeat split; vm_compute; reflexivity. Qed.

(** ** Rectangles satisfy the geometry laws *)

Lemma Qmax_le_iff (a b x : Q) : (Qmax a b <= x <-> a <= x /\ b <= x)%Q.
Proof.
  unfold Qmax. destruct (Qle_bool a b) eqn:E.
  - apply Qle_bool_iff in E. split; [intros; split; lra | tauto].
  - assert (b < a)%Q.
    { apply Qnot_le_lt. intros Hle. apply Qle_bool_iff in Hle. congruence. }
    split; [intros; split; lra | tauto].
Qed.

Lemma Qmin_ge_iff (a b x : Q) : (x <= Qmin a b <-> x <= a /\ x <= b)%Q.
Proof.
  unfold Qmin. destruct (Qle_bool a b) eqn:E.
  - apply Qle_bool_iff in E. split; [intros; split; lra | tauto].
  - assert (b < a)%Q.
    { apply Qnot_le_lt. intros Hle. apply Qle_bool_iff in Hle. congruence. }
    split; [intros; split; lra | tauto].
Qed.

Lemma rect_covers_iff (g : Rect) (x y : Q) :
  rect_covers g (x, y) = true <->
  exists x1 y1 x2 y2, g = MkRect x1 y1 x2 y2 /\
    (x1 <= x /\ x <= x2 /\ y1 <= y /\ y <= y2)%Q.
Proof.
  destruct g as [|x1 y1 x2 y2]; cbn [rect_covers].
  - split; [discriminate | intros (? & ? & ? & ? & [=] & _)].
  - rewrite in_bbox_iff. split.
    + intros Hp. now exists x1, y1, x2, y2.
    + now intros (? & ? & ? & ? & [= -> -> -> ->] & Hp).
Qed.

Lemma rect_box_covers_iff (x1 y1 x2 y2 x y : Q) :
  rect_covers (rect_box x1 y1 x2 y2) (x, y) = true <->
  (x1 <= x /\ x <= x2 /\ y1 <= y /\ y <= y2)%Q.
Proof.
  unfold rect_box. destruct (Qle_bool x1 x2 && Qle_bool y1 y2) eqn:E.
  - cbn [rect_covers]. apply in_bbox_iff.
  - cbn [rect_covers]. split; [discriminate|]. intros (H1 & H2 & H3 & H4).
    apply andb_false_iff in E as [E | E].
    + assert (Qle_bool x1 x2 = true) by (apply Qle_bool_iff; lra). congruence.
    + assert (Qle_bool y1 y2 = true) by (apply Qle_bool_iff; lra). congruence.
Qed.

Lemma rect_box_cases (x1 y1 x2 y2 : Q) :
  (rect_box x1 y1 x2 y2 = MkRect x1 y1 x2 y2 /\ (x1 <= x2 /\ y1 <= y2)%Q) \/
  (rect_box x1 y1 x2 y2 = EmptyRect /\ (x2 < x1 \/ y2 < y1)%Q).
Proof.
  unfold rect_box. destruct (Qle_bool x1 x2) eqn:Ex; cbn [andb].
  - destruct (Qle_bool y1 y2) eqn:Ey.
    + left. apply Qle_bool_iff in Ex, Ey. tauto.
    + right. split; [reflexivity|]. right. apply Qnot_le_lt. intros Hle.
      apply Qle_bool_iff in Hle. congruence.
  - right. split; [reflexivity|]. left. apply Qnot_le_lt. intros Hle.
    apply Qle_bool_iff in Hle. congruence.
Qed.

Lemma bool_eq_iff (a b : bool) : (a = true <-> b = true) -> a = b.
Proof. destruct a, b; intuition congruence. Qed.

#[global] Instance Rect_GeometryLaws : shapely.GeometryLaws Rect.
Proof.
  split.
  - intros a b [x y]. apply bool_eq_iff. rewrite andb_true_iff.
    cbn [shapely.covers shapely.intersection Rect_Geometry].
    destruct a as [|ax1 ay1 ax2 ay2], b as [|bx1 by1 bx2 by2];
      cbn [rect_intersection rect_covers]; try (intuition congruence).
    rewrite rect_box_covers_iff, !in_bbox_iff, !Qmax_le_iff, !Qmin_ge_iff. tauto.
  - intros g [[[x1 y1] x2] y2] [x y]. apply bool_eq_iff. rewrite andb_true_iff.
    cbn [shapely.covers shapely.clip_by_rect Rect_Geometry].
    destruct g as [|gx1 gy1 gx2 gy2]; [cbn; intuition congruence|].
    destruct (rect_box_cases x1 y1 x2 y2) as [(-> & _) | (-> & Hinv)];
      cbn [rect_intersection rect_covers].
    + rewrite rect_box_covers_iff, !in_bbox_iff, !Qmax_le_iff, !Qmin_ge_iff. tauto.
    + rewrite !in_bbox_iff. split; [discriminate|]. intros (_ & Hp). lra.
  - intros g d [x y] Hd.
    cbn [shapely.covers shapely.buffer Rect_Geometry].
    destruct g as [|x1 y1 x2 y2]; cbn [rect_covers]; [discriminate|].
    rewrite rect_box_covers_iff, in_bbox_iff. intros (H1 & H2 & H3 & H4).
    repeat split; lra.
  - intros g p. cbn [shapely.is_empty shapely.covers Rect_Geometry].
    destruct g; [reflexivity | discriminate].
Qed.

(** ** Outer tiles (C4) *)

Section OuterTiles.
Context {G : Type} {geom : shapely.Geometry G} {laws : shapely.GeometryLaws G}.

(** Every tile comes from a cell of one of the areas. *)
Lemma get_tiles_In (areas : list (Area G)) (mw mh : Q) (rows : list (TileRow G))
    (r : TileRow G) :
  get_tiles areas mw mh = Ok rows -> In r rows ->
  exists area x1 y1 x2 y2, In area areas /\
    tile_inner r = shapely.intersection (shapely.box x1 y1 x2 y2) (area_geometry area).
Proof.
  revert rows. induction areas as [|area rest IH]; intros rows; cbn [get_tiles].
  - intros [= <-] [].
  - unfold get_tiles_row.
    destruct (shapely.bounds (area_geometry area)) as [[[min_x min_y] max_x] max_y].
    destruct (grid_dims _ _ _) as [[[[n_cols n_rows] tw] th] | e];
      cbn [mbind Result_bind mret Result_ret]; [|discriminate].
    destruct (get_tiles rest mw mh) as [more | e];
      cbn [mbind Result_bind mret Result_ret]; [|discriminate].
    intros [= <-] Hin. apply in_app_or in Hin as [Hin | Hin].
    + apply in_map_iff in Hin as ([i j] & <- & _).
      exists area. unfold make_tile.
      destruct (grid_cell min_x min_y tw th i j) as [[[x1 y1] x2] y2].
      exists x1, y1, x2, y2. split; [now left | reflexivity].
    + destruct (IH more eq_refl Hin) as (a & x1 & y1 & x2 & y2 & Ha & E).
      exists a, x1, y1, x2, y2. split; [now right | exact E].
Qed.

(** Areas that went through [clip_areas] lie within the bounds. *)
Lemma clip_areas_within (rows : list (Area G)) (bounds : BBox Q) (area : Area G)
    (p : Point) :
  In area (clip_areas rows bounds) ->
  shapely.covers (area_geometry area) p = true -> in_bbox bounds p = true.
Proof.
  unfold clip_areas. intros Hin Hp. apply filter_In in Hin as [Hin _].
  apply in_map_iff in Hin as (row & <- & _). cbn [area_geometry] in Hp.
  rewrite shapely.covers_clip_by_rect in Hp. now apply andb_true_iff in Hp.
Qed.

(** The two containments for one tile row whose inner tile stays within the
    bounds. *)
Lemma outer_tile_contains (inner : G) (buffer_m : Q) (bounds : BBox Q) (p : Point) :
  (0 < buffer_m)%Q ->
  (shapely.covers inner p = true -> in_bbox bounds p = true) ->
  (shapely.covers inner p = true ->
     covers_outer (outer_tile inner buffer_m bounds) p = true) /\
  (covers_outer (outer_tile inner buffer_m bounds) p = true ->
     in_bbox bounds p = true).
Proof.
  intros Hd Hin. unfold outer_tile.
  destruct (shapely.is_empty _) eqn:Eempty; cbn [covers_outer].
  - split; [|discriminate]. intros Hp.
    apply (shapely.covers_is_empty _ p) in Eempty.
    rewrite shapely.covers_clip_by_rect in Eempty.
    rewrite (shapely.covers_buffer _ _ _ Hd Hp), (Hin Hp) in Eempty. discriminate.
  - rewrite shapely.covers_clip_by_rect. split.
    + intros Hp. now rewrite (shapely.covers_buffer _ _ _ Hd Hp), (Hin Hp).
    + intros Hp. now apply andb_true_iff in Hp.
Qed.

(** A file that is in the CRS of the orthophoto is not changed by the
    reprojection. *)
Lemma areas_to_crs_same (areas : list (Area G)) :
  (forall g : G, shapely.to_crs g = g) -> areas_to_crs areas = areas.
Proof.
  intros Hsame. unfold areas_to_crs. induction areas as [|[fields g] rest IH];
    cbn [map area_fields area_geometry]; [reflexivity|].
  now rewrite Hsame, IH.
Qed.

Lemma add_outer_contains (shapefile : list (Area G)) (bounds : BBox Q)
    (mw mh buffer_m : Q) (rows : list (TileRow G)) (t : Tile G) (p : Point) :
  (0 < buffer_m)%Q ->
  get_tiles (clip_areas shapefile bounds) mw mh = Ok rows ->
  In t (add_outer buffer_m bounds rows) ->
  (shapely.covers (tile_inner (tile_row t)) p = true ->
     covers_outer (tile_outer t) p = true) /\
  (covers_outer (tile_outer t) p = true -> in_bbox bounds p = true).
Proof.
  intros Hd Hrows Hin. unfold add_outer in Hin.
  apply in_map_iff in Hin as (r & <- & Hr). cbn [tile_row tile_outer].
  apply outer_tile_contains; [exact Hd|]. intros Hp.
  destruct (get_tiles_In _ _ _ _ _ Hrows Hr) as (area & x1 & y1 & x2 & y2 & Ha & E).
  rewrite E, shapely.covers_intersection in Hp.
  apply andb_true_iff in Hp as [_ Hp].
  exact (clip_areas_within _ _ _ _ Ha Hp).
Qed.


(** X21: for a split file that is in the CRS of the orthophoto, so that the
    reprojection after the clip changes nothing, and with a positive buffer
    distance, every tile of the table built by [prepare_yolo_dataset.main]
    has its inner geometry contained in its outer geometry, and its outer
    geometry contained in the raster bounds. *)
Lemma prepare_tiles_containment (orthophoto : GeoTiff G)
    (split_shapefile : list (Area G)) (wpx hpx : Z) (buffer_m : Q)
    (tiles : list (Tile G)) :
  (forall g : G, shapely.to_crs g = g) ->
  (0 < buffer_m)%Q ->
  prepare_yolo_dataset_tiles orthophoto split_shapefile wpx hpx buffer_m = Ok tiles ->
  forall t p, In t tiles ->
    (shapely.covers (tile_inner (tile_row t)) p = true ->
       covers_outer (tile_outer t) p = true) /\
    (covers_outer (tile_outer t) p = true ->
       in_bbox (geotiff_bounds orthophoto) p = true).
Proof.
  intros Hsame Hd Hok t p Hin. unfold prepare_yolo_dataset_tiles in Hok.
  rewrite (areas_to_crs_same _ Hsame) in Hok.
  destruct (gt_scale orthophoto) as [scale_x scale_y].
  destruct (get_tiles _ _ _) as [rows | e] eqn:Hrows;
    cbn [mbind Result_bind mret Result_ret] in Hok; [|discriminate].
  injection Hok as <-.
  exact (add_outer_contains _ _ _ _ _ _ _ _ Hd Hrows Hin).
Qed.

End OuterTiles.



(** The containment needs the areas file to be in the CRS of the orthophoto.
    Read from a file whose coordinates are those of the orthophoto moved by
    2000 units to the west, the sample area passes the clip unchanged and is
    then reprojected to [[2000, 3000] x [0, 1000]], outside the raster: the
    tile ["2000_0"] has the inner geometry [[2000, 2500] x [0, 500]] and no
    outer geometry at all. *)
Lemma reprojected_area_leaves_bounds :
  exists tiles t,
    tile_orthophoto_tiles (H := Rect_Geometry_other_crs 2000 0)
      demo_orthophoto demo_areas 620 10 = Ok tiles /\
    In t tiles /\
    tile_id (tile_row t) = "2000_0"%string /\
    tile_inner (tile_row t) = MkRect 2000 0 (5000 # 2) (1000 # 2) /\
    tile_outer t = None /\
    shapely.covers (tile_inner (tile_row t)) (2000, 0)%Q = true /\
    in_bbox (geotiff_bounds demo_orthophoto) (2000, 0)%Q = false.
Proof.
  eexists. eexists. split; [vm_compute; reflexivity|].
  split; [left; reflexivity|]. repeat split.
Qed.

(** ** The buffer-size check (C7) *)

Section BufferCheck.
Context {G : Type} {geom : shapely.Geometry G}.

(** X20: when the outer tile size in map units is not larger than twice
    the buffer, along x or along y, [tile_orthophoto.main] stops at its
    assertion with the world untouched. *)
Lemma tile_orthophoto_fails_fast (orthophoto : GeoTiff G)
    (shapefile : list (Area G)) (max_tile_size_px : Z) (buffer_m : Q)
    (outdir : string) (w : World) :
  (~ (2 * buffer_m < fst (gt_scale orthophoto) * inject_Z max_tile_size_px)%Q \/
   ~ (2 * buffer_m < snd (gt_scale orthophoto) * inject_Z max_tile_size_px)%Q) ->
  tile_orthophoto_main orthophoto shapefile max_tile_size_px buffer_m outdir w
  = (Raise (AssertionError assert_msg), w).
Proof.
  intros Hbad. unfold tile_orthophoto_main, tile_orthophoto_tiles.
  destruct (gt_scale orthophoto) as [scale_x scale_y]. cbn [fst snd] in Hbad.
  unfold py_assert.
  destruct (Qlt_bool (2 * buffer_m) (scale_x * inject_Z max_tile_size_px)) eqn:Ex;
    [|reflexivity].
  destruct (Qlt_bool (2 * buffer_m) (scale_y * inject_Z max_tile_size_px)) eqn:Ey;
    [|reflexivity].
  unfold Qlt_bool in Ex, Ey. apply negb_true_iff in Ex, Ey.
  assert (Hx : (2 * buffer_m < scale_x * inject_Z max_tile_size_px)%Q).
  { apply Qnot_le_lt. intros Hle. apply Qle_bool_iff in Hle. congruence. }
  assert (Hy : (2 * buffer_m < scale_y * inject_Z max_tile_size_px)%Q).
  { apply Qnot_le_lt. intros Hle. apply Qle_bool_iff in Hle. congruence. }
  tauto.
Qed.

End BufferCheck.

(** C7 fails on the code: [prepare_yolo_dataset.main] has no buffer check.
    With an outer tile of 620 units and a buffer of 400 the inner tile width
    is negative, no tile is generated, and the script replaces the output
    directory, writes [data.yaml] and ends without an error; the same input
    stops [tile_orthophoto.main] at its assertion before anything is
    touched. *)
Theorem prepare_yolo_dataset_no_buffer_check :
  prepare_yolo_dataset_main demo_orthophoto demo_areas [] "out" 620 620 400
    (MkWorld ∅ [])
  = (Ok tt, MkWorld ∅ [MakeOrReplaceDir "out"; SafeDump "out/data.yaml" []]) /\
  tile_orthophoto_main demo_orthophoto demo_areas 620 400 "out" (MkWorld ∅ [])
  = (Raise (AssertionError assert_msg), MkWorld ∅ []).
Proof. split; vm_compute; reflexivity. Qed.

(** ** Alpha normalization (C8) *)

Lemma has_shape_lookup (h w : nat) (data : list Band) (band : Band) :
  has_shape h w data -> In band data ->
  length band = h /\ forall i row, band !! i = Some row -> length row = w.
Proof.
  unfold has_shape. rewrite Forall_forall. intros Hall Hin.
  apply list_elem_of_In in Hin.
  destruct (Hall band Hin) as [Hlen Hrows]. split; [exact Hlen|].
  intros i row Hrow. rewrite Forall_forall in Hrows.
  apply Hrows. eapply list_elem_of_lookup_2. exact Hrow.
Qed.

Lemma pixel_alpha_mask (a : Band) (i j : nat) (va : Z) :
  pixel a i j = Some va ->
  exists row, a !! i = Some row /\ row !! j = Some va /\
    alpha_mask a !! i = Some ((fun v => v =? 0) <$> row).
Proof.
  unfold pixel, alpha_mask. intros Hp.
  destruct (a !! i) as [row|] eqn:Hrow; cbn in Hp; [|discriminate].
  exists row. split; [reflexivity|]. split; [exact Hp|].
  rewrite list_lookup_fmap, Hrow. reflexivity.
Qed.

(** A masked assignment overwrites exactly the pixels where alpha is zero. *)
Lemma pixel_assign_masked (h w : nat) (band a : Band) (i j : nat) (va : Z) :
  has_shape h w [band; a] ->
  pixel a i j = Some va ->
  pixel (assign_masked band (alpha_mask a) 255) i j
  = if va =? 0 then Some 255 else pixel band i j.
Proof.
  intros Hshape Hpa.
  destruct (has_shape_lookup h w _ band Hshape ltac:(now left)) as [Hbl Hbr].
  destruct (has_shape_lookup h w _ a Hshape ltac:(right; now left)) as [Hal Har].
  destruct (pixel_alpha_mask a i j va Hpa) as (arow & Harow & Hva & Hmask).
  assert (Hi : (i < length band)%nat).
  { rewrite Hbl, <- Hal. eapply lookup_lt_Some. exact Harow. }
  destruct (lookup_lt_is_Some_2 band i Hi) as [brow Hbrow].
  assert (Hj : (j < length brow)%nat).
  { rewrite (Hbr _ _ Hbrow), <- (Har _ _ Harow). eapply lookup_lt_Some. exact Hva. }
  destruct (lookup_lt_is_Some_2 brow j Hj) as [vb Hvb].
  unfold pixel, assign_masked.
  rewrite lookup_zip_with, Hbrow, Hmask. cbn.
  rewrite lookup_zip_with, Hvb, list_lookup_fmap, Hva. cbn.
  now destruct (va =? 0).
Qed.

Lemma assign_masked_shape (h w : nat) (band a : Band) :
  has_shape h w [band; a] -> has_shape h w [assign_masked band (alpha_mask a) 255].
Proof.
  intros Hshape.
  destruct (has_shape_lookup h w _ band Hshape ltac:(now left)) as [Hbl Hbr].
  destruct (has_shape_lookup h w _ a Hshape ltac:(right; now left)) as [Hal Har].
  constructor; [|constructor]. unfold assign_masked, alpha_mask. split.
  - rewrite length_zip_with, length_fmap. lia.
  - apply Forall_forall. intros row Hrow.
    apply list_elem_of_lookup in Hrow as [i Hi].
    rewrite lookup_zip_with in Hi.
    destruct (band !! i) as [brow|] eqn:Hbrow; cbn in Hi; [|discriminate].
    rewrite list_lookup_fmap in Hi.
    destruct (a !! i) as [arow|] eqn:Harow; cbn in Hi; [|discriminate].
    injection Hi as <-. rewrite length_zip_with, length_fmap.
    rewrite (Hbr _ _ Hbrow), (Har _ _ Harow). lia.
Qed.

(** Of the dtypes of a raster only [int8] cannot hold 255. *)
Lemma dtype_holds_255 (dtype : string) :
  dtype_holds dtype 255 = negb (String.eqb dtype "int8").
Proof.
  unfold dtype_holds, dtype_range.
  repeat (destruct (String.eqb dtype _); [reflexivity|]). reflexivity.
Qed.

Lemma np_setitem_255 (dtype : string) (band : Band) (mask : list (list bool)) :
  dtype <> "int8"%string ->
  np_setitem dtype band mask 255 = Ok (assign_masked band mask 255).
Proof.
  intros Hne. unfold np_setitem. rewrite dtype_holds_255.
  destruct (String.eqb_spec dtype "int8"); [contradiction | reflexivity].
Qed.

Lemma np_setitem_int8 (band : Band) (mask : list (list bool)) :
  np_setitem "int8" band mask 255
  = Raise (OverflowError "Python integer 255 out of bounds for int8").
Proof. reflexivity. Qed.

(** C8, as amended: on an existing input file, a 4-band raster whose dtype
    can hold 255 (any dtype but [int8]) is written as 3 bands of the same
    shape in which a pixel is 255 in red, green and blue where its alpha is
    0 and keeps its three values elsewhere; a 4-band raster of dtype [int8]
    raises [OverflowError] at the first assignment; a 3-band raster is
    written with its data unchanged; any other band count raises
    [ValueError]. *)
Theorem alpha_normalization (files : gmap string Raster)
    (input_path output_path : string) (src : Raster) :
  files !! input_path = Some src ->
  (forall r g b a h w,
     raster_dtype src <> "int8"%string ->
     raster_data src = [r; g; b; a] -> has_shape h w (raster_data src) ->
     exists r' g' b',
       replace_geotiff_alpha input_path output_path files
         = Ok (<[output_path := MkRaster (raster_dtype src) [r'; g'; b']]> files) /\
       has_shape h w [r'; g'; b'] /\
       forall i j va, pixel a i j = Some va ->
         pixel r' i j = (if va =? 0 then Some 255 else pixel r i j) /\
         pixel g' i j = (if va =? 0 then Some 255 else pixel g i j) /\
         pixel b' i j = (if va =? 0 then Some 255 else pixel b i j)) /\
  (raster_dtype src = "int8"%string -> raster_count src = 4 ->
     replace_geotiff_alpha input_path output_path files
       = Raise (OverflowError "Python integer 255 out of bounds for int8")) /\
  (raster_count src = 3 ->
     replace_geotiff_alpha input_path output_path files
       = Ok (<[output_path := MkRaster (raster_dtype src) (raster_data src)]> files)) /\
  (raster_count src <> 3 -> raster_count src <> 4 ->
     replace_geotiff_alpha input_path output_path files
       = Raise (ValueError ("Unsupported band count: " ++ py_str (raster_count src)))).
Proof.
  intros Hsrc. unfold replace_geotiff_alpha. rewrite Hsrc.
  split; [|split; [|split]].
  - intros r g b a h w Hdtype Hdata Hshape. unfold raster_count. rewrite Hdata in *.
    cbn [length Z.of_nat Z.eqb Pos.of_succ_nat Pos.succ Pos.eqb].
    rewrite !(np_setitem_255 _ _ _ Hdtype). cbn [mbind Result_bind mret Result_ret].
    do 3 eexists. split; [reflexivity|].
    unfold has_shape in Hshape.
    apply Forall_cons in Hshape as [Hr Hshape].
    apply Forall_cons in Hshape as [Hg Hshape].
    apply Forall_cons in Hshape as [Hb Hshape].
    apply Forall_cons in Hshape as [Ha _].
    assert (Hra : has_shape h w [r; a]) by (repeat constructor; tauto).
    assert (Hga : has_shape h w [g; a]) by (repeat constructor; tauto).
    assert (Hba : has_shape h w [b; a]) by (repeat constructor; tauto).
    split.
    + pose proof (assign_masked_shape h w r a Hra) as Sr.
      pose proof (assign_masked_shape h w g a Hga) as Sg.
      pose proof (assign_masked_shape h w b a Hba) as Sb.
      unfold has_shape in *.
      apply Forall_cons in Sr as [Sr _]. apply Forall_cons in Sg as [Sg _].
      apply Forall_cons in Sb as [Sb _]. repeat constructor; tauto.
    + intros i j va Hva. repeat split; eapply pixel_assign_masked; eassumption.
  - intros Hdtype Hcount. rewrite Hcount, Hdtype. unfold raster_count in Hcount.
    destruct (raster_data src) as [|r [|g [|b [|a [|x rest]]]]];
      cbn [length] in Hcount; try lia.
    reflexivity.
  - intros ->. reflexivity.
  - intros H3 H4.
    destruct (Z.eqb_spec (raster_count src) 4); [contradiction|].
    destruct (Z.eqb_spec (raster_count src) 3); [contradiction|]. reflexivity.
Qed.

(** The sample raster: its first pixel is transparent, its second is not. *)
Lemma alpha_normalization_witness :
  exists r' g' b',
    replace_geotiff_alpha "tile.tif" "tile.tif" {["tile.tif"%string := demo_rgba]}
      = Ok (<["tile.tif"%string := MkRaster "uint8" [r'; g'; b']]>
              {["tile.tif"%string := demo_rgba]}) /\
    has_shape 1 2 [r'; g'; b'] /\
    forall i j va, pixel [[0; 255]] i j = Some va ->
      pixel r' i j = (if va =? 0 then Some 255 else pixel [[10; 20]] i j) /\
      pixel g' i j = (if va =? 0 then Some 255 else pixel [[30; 40]] i j) /\
      pixel b' i j = (if va =? 0 then Some 255 else pixel [[50; 60]] i j).
Proof.
  refine (proj1 (alpha_normalization {["tile.tif"%string := demo_rgba]}
                   "tile.tif" "tile.tif" demo_rgba _)
                [[10; 20]] [[30; 40]] [[50; 60]] [[0; 255]] 1%nat 2%nat _ eq_refl _).
  - vm_compute. reflexivity.
  - discriminate.
  - unfold has_shape, demo_rgba. cbn. repeat constructor.
Defined.

(** C8 as stated fails for a 4-band raster of signed bytes: 255 is not a
    value of [int8], the first assignment raises [OverflowError] and no
    output is written, although the first pixel is fully transparent. *)
Lemma alpha_int8_counterexample :
  raster_count demo_int8 = 4 /\
  pixel [[0; 127]] 0 0 = Some 0 /\
  replace_geotiff_alpha "tile.tif" "tile.tif" {["tile.tif"%string := demo_int8]}
    = Raise (OverflowError "Python integer 255 out of bounds for int8").
Proof. repeat split. Qed.

(** ** Reassembling detections (C2, C10) *)

Section Combine.
Context {G : Type} {geom : shapely.Geometry G}.
Implicit Types (labels : gmap string (list (YoloRecord Q)))
               (images : gmap string (GeoTiff G))
               (tiles : list (TileRow G)) (shape : string).

Lemma tile_detections_supported shape (orthophoto : GeoTiff G)
    (lines : list (YoloRecord Q)) :
  supported shape -> exists part, tile_detections shape orthophoto lines = Ok part.
Proof.
  unfold tile_detections.
  destruct (ovals_from_yolo_output lines (geotiff_bounds orthophoto)) as [c1 p1].
  destruct (bboxes_from_yolo_output lines (geotiff_bounds orthophoto)) as [c2 p2].
  intros [-> | ->]; eexists; reflexivity.
Qed.

Lemma tile_detections_unsupported shape (orthophoto : GeoTiff G)
    (lines : list (YoloRecord Q)) :
  ~ supported shape ->
  tile_detections shape orthophoto lines = Raise (shape_error shape).
Proof.
  unfold tile_detections, supported. intros Hns.
  destruct (String.eqb_spec shape "oval"); [tauto|].
  destruct (String.eqb_spec shape "rectangle"); [tauto|]. reflexivity.
Qed.

Lemma supported_dec shape : {supported shape} + {~ supported shape}.
Proof.
  unfold supported.
  destruct (string_dec shape "oval"); [left; tauto|].
  destruct (string_dec shape "rectangle"); [left; tauto|]. right. tauto.
Defined.

(** The loop raises nothing but the shape error, and raises it exactly when
    it reaches a tile with both files under an unsupported shape. *)
Lemma combine_parts_raise labels images tiles shape (e : PyError) :
  combine_parts labels images tiles shape = Raise e <->
  e = shape_error shape /\ ~ supported shape /\
  exists tile, In tile tiles /\ has_both_files labels images tile.
Proof.
  induction tiles as [|tile rest IH]; cbn [combine_parts].
  - split; [discriminate | intros (_ & _ & ? & [] & _)].
  - destruct (images !! geotiff_name (tile_id tile)) as [orthophoto|] eqn:Hi.
    + destruct (labels !! labels_name (tile_id tile)) as [lines|] eqn:Hl.
      * destruct (supported_dec shape) as [Hs | Hns].
        -- destruct (tile_detections_supported shape orthophoto lines Hs) as [part ->].
           cbn [mbind Result_bind mret Result_ret].
           destruct (combine_parts labels images rest shape) as [parts | e'];
             cbn [mbind Result_bind mret Result_ret].
           ++ split; [discriminate | tauto].
           ++ split; [|tauto]. intros [= ->].
              destruct (proj1 IH eq_refl) as (_ & Hns & _). tauto.
        -- rewrite (tile_detections_unsupported shape orthophoto lines Hns).
           cbn [mbind Result_bind]. split.
           ++ intros [= <-]. split; [reflexivity|]. split; [exact Hns|].
              exists tile. split; [now left|]. split; [rewrite Hi | rewrite Hl]; eauto.
           ++ now intros (-> & _).
      * rewrite IH. split.
        -- intros (He & Hns & t & Ht & Hb). repeat split; try assumption.
           exists t. split; [now right | exact Hb].
        -- intros (He & Hns & t & [<- | Ht] & Hb).
           ++ destruct Hb as [_ [x Hx]]. congruence.
           ++ repeat split; try assumption. now exists t.
    + rewrite IH. split.
      * intros (He & Hns & t & Ht & Hb). repeat split; try assumption.
        exists t. split; [now right | exact Hb].
      * intros (He & Hns & t & [<- | Ht] & Hb).
        -- destruct Hb as [[x Hx] _]. congruence.
        -- repeat split; try assumption. now exists t.
Qed.

Lemma shape_error_not_concat shape :
  shape_error shape <> ValueError "No objects to concatenate".
Proof. unfold shape_error. cbn. discriminate. Qed.

(** C10, as amended: the run ends in the unsupported-shape error exactly
    when [shape] is neither ["rectangle"] nor ["oval"] and some tile of the
    shapefile has both its image and its label file; with an unsupported
    shape and no such tile, the shape error is not raised. *)
Theorem shape_error_iff labels images tiles shape :
  combine_main labels images tiles shape = Raise (shape_error shape) <->
  ~ supported shape /\
  exists tile, In tile tiles /\ has_both_files labels images tile.
Proof.
  unfold combine_main.
  destruct (combine_parts labels images tiles shape) as [parts | e] eqn:Hparts;
    cbn [mbind Result_bind].
  - split.
    + unfold pd_concat. destruct parts; [|discriminate].
      intros E. exfalso. apply (shape_error_not_concat shape). congruence.
    + intros (Hns & Hex).
      assert (Hr : combine_parts labels images tiles shape = Raise (shape_error shape))
        by (apply combine_parts_raise; tauto).
      congruence.
  - apply combine_parts_raise in Hparts as (-> & Hns & Hex). tauto.
Qed.

(** *** Centroid clipping *)

Lemma clip_by_centroid_In (tile_inner : G) (part : list (Z * G)) (row : Z * G) :
  In row (clip_by_centroid tile_inner part) <->
  In row part /\ shapely.covers tile_inner (shapely.centroid (snd row)) = true.
Proof. unfold clip_by_centroid. apply filter_In. Qed.

Lemma combine_parts_app labels images (ts1 ts2 : list (TileRow G)) shape
    (parts : list (list (Z * G))) :
  combine_parts labels images (ts1 ++ ts2) shape = Ok parts ->
  exists p1 p2,
    combine_parts labels images ts1 shape = Ok p1 /\
    combine_parts labels images ts2 shape = Ok p2 /\ parts = p1 ++ p2.
Proof.
  revert parts. induction ts1 as [|t rest IH]; intros parts; cbn [app combine_parts].
  - intros Hok. exists [], parts. auto.
  - destruct (images !! geotiff_name (tile_id t)) as [orthophoto|];
      [destruct (labels !! labels_name (tile_id t)) as [lines|]|].
    + destruct (tile_detections shape orthophoto lines) as [part | e];
        cbn [mbind Result_bind mret Result_ret]; [|discriminate].
      destruct (combine_parts labels images (rest ++ ts2) shape) as [ps | e];
        cbn [mbind Result_bind mret Result_ret]; [|discriminate].
      intros [= <-]. destruct (IH ps eq_refl) as (p1 & p2 & -> & -> & ->).
      cbn [mbind Result_bind mret Result_ret]. eauto.
    + apply IH.
    + apply IH.
Qed.

(** A row whose centroid no tile of the list covers is in none of the parts. *)
Lemma combine_parts_not_In labels images tiles shape
    (parts : list (list (Z * G))) (d : Z * G) :
  combine_parts labels images tiles shape = Ok parts ->
  (forall t, In t tiles ->
     shapely.covers (tile_inner t) (shapely.centroid (snd d)) = false) ->
  ~ In d (concat parts).
Proof.
  revert parts. induction tiles as [|t rest IH]; intros parts; cbn [combine_parts].
  - intros [= <-] _ [].
  - intros Hok Hout.
    assert (Hrest : forall t', In t' rest ->
              shapely.covers (tile_inner t') (shapely.centroid (snd d)) = false)
      by (intros t' Ht'; apply Hout; now right).
    destruct (images !! geotiff_name (tile_id t)) as [orthophoto|];
      [destruct (labels !! labels_name (tile_id t)) as [lines|]|];
      try (now apply (IH parts Hok Hrest)).
    destruct (tile_detections shape orthophoto lines) as [part | e];
      cbn [mbind Result_bind mret Result_ret] in Hok; [|discriminate].
    destruct (combine_parts labels images rest shape) as [ps | e];
      cbn [mbind Result_bind mret Result_ret] in Hok; [|discriminate].
    injection Hok as <-. cbn [concat]. intros Hin.
    apply in_app_or in Hin as [Hin | Hin].
    + apply clip_by_centroid_In in Hin as [_ Hc].
      rewrite (Hout t) in Hc by now left. discriminate.
    + exact (IH ps eq_refl Hrest Hin).
Qed.

Lemma clip_by_centroid_once (tile_inner : G) (part : list (Z * G)) (d : Z * G) :
  occurs_once d part ->
  shapely.covers tile_inner (shapely.centroid (snd d)) = true ->
  occurs_once d (clip_by_centroid tile_inner part).
Proof.
  intros (l1 & l2 & -> & H1 & H2) Hc. unfold clip_by_centroid.
  rewrite List.filter_app. cbn [List.filter]. rewrite Hc.
  eexists _, _. split; [reflexivity|].
  split; intros Hin; apply filter_In in Hin as [Hin _]; tauto.
Qed.

(** C2: let tile [t0] have both files and detections [part0]. A detection
    of [part0] is in the tile's contribution if and only if its centroid
    lies in the inner geometry of [t0]; the contribution is a segment of the
    combined output; and a detection that [t0] holds once, whose centroid
    lies in the inner geometry of [t0] and of no other tile, is in the
    combined output exactly once. *)
Theorem centroid_dedup labels images (ts1 ts2 : list (TileRow G))
    (t0 : TileRow G) shape (orthophoto : GeoTiff G) (lines : list (YoloRecord Q))
    (part0 out : list (Z * G)) :
  images !! geotiff_name (tile_id t0) = Some orthophoto ->
  labels !! labels_name (tile_id t0) = Some lines ->
  tile_detections shape orthophoto lines = Ok part0 ->
  combine_main labels images (ts1 ++ t0 :: ts2) shape = Ok out ->
  (forall row, In row (clip_by_centroid (tile_inner t0) part0) <->
     In row part0 /\
     shapely.covers (tile_inner t0) (shapely.centroid (snd row)) = true) /\
  (exists before after,
     out = before ++ clip_by_centroid (tile_inner t0) part0 ++ after) /\
  (forall d,
     occurs_once d part0 ->
     shapely.covers (tile_inner t0) (shapely.centroid (snd d)) = true ->
     (forall t, In t (ts1 ++ ts2) ->
        shapely.covers (tile_inner t) (shapely.centroid (snd d)) = false) ->
     occurs_once d out).
Proof.
  intros Hi Hl Hdet Hmain. unfold combine_main in Hmain.
  destruct (combine_parts labels images (ts1 ++ t0 :: ts2) shape)
    as [parts | e] eqn:Hparts; cbn [mbind Result_bind] in Hmain; [|discriminate].
  apply combine_parts_app in Hparts as (p1 & p2 & Hp1 & Hp2 & ->).
  cbn [combine_parts] in Hp2. rewrite Hi, Hl, Hdet in Hp2.
  cbn [mbind Result_bind mret Result_ret] in Hp2.
  destruct (combine_parts labels images ts2 shape) as [p3 | e] eqn:Hp3;
    cbn [mbind Result_bind mret Result_ret] in Hp2; [|discriminate].
  injection Hp2 as <-.
  assert (Hout : out = concat p1 ++ clip_by_centroid (tile_inner t0) part0 ++ concat p3).
  { unfold pd_concat in Hmain. destruct p1; cbn in Hmain;
      injection Hmain as <-; cbn [concat app]; [reflexivity|].
    rewrite concat_app. cbn [concat]. now rewrite <- app_assoc. }
  split; [intros row; apply clip_by_centroid_In|].
  split; [eauto|].
  intros d Honce Hc Hothers.
  destruct (clip_by_centroid_once _ _ _ Honce Hc) as (l1 & l2 & E & H1 & H2).
  assert (N1 : ~ In d (concat p1)).
  { apply (combine_parts_not_In _ _ _ _ _ _ Hp1).
    intros t Ht. apply Hothers, in_or_app. now left. }
  assert (N3 : ~ In d (concat p3)).
  { apply (combine_parts_not_In _ _ _ _ _ _ Hp3).
    intros t Ht. apply Hothers, in_or_app. now right. }
  exists (concat p1 ++ l1), (l2 ++ concat p3). split.
  - rewrite Hout, E. rewrite <- !app_assoc. reflexivity.
  - split; intros Hin; apply in_app_or in Hin; tauto.
Qed.

End Combine.

(** C10 as stated fails: with shape ["triangle"] and a tile that has
    neither file, the run does not complete; [pd.concat] raises on the empty
    list of parts and nothing is written. *)
Lemma unsupported_shape_no_files_counterexample :
  let tiles := [MkTileRow "0_0" [("split", "train")] (MkRect 0 0 500 500)] in
  ~ supported "triangle" /\
  (forall tile, In tile tiles -> ~ has_both_files (G := Rect) ∅ ∅ tile) /\
  combine_main (G := Rect) ∅ ∅ tiles "triangle"
    = Raise (ValueError "No objects to concatenate") /\
  is_ok (combine_main (G := Rect) ∅ ∅ tiles "triangle") = false.
Proof.
  cbn zeta. split; [intros [E | E]; discriminate|].
  split; [|split; reflexivity].
  intros tile _ [[x Hx] _]. rewrite lookup_empty in Hx. discriminate.
Qed.

(** Two overlapping tiles detect the same object; its centroid lies in the
    inner tile of the first only, and the output holds it once. *)
Lemma centroid_dedup_witness :
  exists out,
    combine_main demo_labels demo_images [demo_tile_a; demo_tile_b] "rectangle"
      = Ok out /\
    length out = 1%nat /\ occurs_once demo_detection out.
Proof.
  eexists. split; [vm_compute; reflexivity|]. split; [reflexivity|].
  refine (proj2 (proj2 (centroid_dedup demo_labels demo_images [] [demo_tile_b]
            demo_tile_a "rectangle" (demo_geotiff 0 0 510 510)
            [MkYolo 1 (498 # 510) (405 # 510) (10 # 510) (10 # 510)]
            [demo_detection] _ _ _ _ _)) demo_detection _ _ _).
  - vm_compute. reflexivity.
  - vm_compute. reflexivity.
  - vm_compute. reflexivity.
  - vm_compute. reflexivity.
  - exists [], []. split; [reflexivity|]. split; intros [].
  - vm_compute. reflexivity.
  - intros t [<- | []]. vm_compute. reflexivity.
Defined.

(** ** More on the label converters *)

Lemma Qhalf (x : Q) : (x / 2 == x * (1 # 2))%Q.
Proof. field. Qed.

(** An image box without width or without height stops the conversion. *)
Lemma convert_to_yolo_format_zero (ox1 oy1 ox2 oy2 ix1 iy1 ix2 iy2 : Q) (c : Z) :
  (ix2 - ix1 == 0 \/ iy2 - iy1 == 0)%Q ->
  convert_to_yolo_format (ox1, oy1, ox2, oy2) (ix1, iy1, ix2, iy2) c
  = Raise ZeroDivisionError.
Proof.
  intros Hz. unfold convert_to_yolo_format. cbn [fsub PyFloat_Q].
  destruct (Qeq_dec (ix2 - ix1) 0) as [Hw | Hw].
  - rewrite !(py_truediv_Q_zero _ _ Hw). reflexivity.
  - destruct Hz as [Hz | Hh]; [contradiction|].
    rewrite !(py_truediv_Q_ok _ _ Hw). cbn [mbind Result_bind].
    rewrite !(py_truediv_Q_zero _ _ Hh). reflexivity.
Qed.

(** X1: [convert_to_yolo_format] raises nothing but [ZeroDivisionError], and
    raises it exactly for an image box of zero width or zero height. *)
Theorem convert_to_yolo_format_raises_iff
    (ox1 oy1 ox2 oy2 ix1 iy1 ix2 iy2 : Q) (c : Z) (e : PyError) :
  convert_to_yolo_format (ox1, oy1, ox2, oy2) (ix1, iy1, ix2, iy2) c = Raise e <->
  e = ZeroDivisionError /\ (ix2 - ix1 == 0 \/ iy2 - iy1 == 0)%Q.
Proof.
  destruct (Qeq_dec (ix2 - ix1) 0) as [Hw | Hw].
  - unfold convert_to_yolo_format. cbn [fsub PyFloat_Q].
    rewrite !(py_truediv_Q_zero _ _ Hw). cbn [mbind Result_bind].
    split; [intros [= <-]; tauto | now intros [-> _]].
  - destruct (Qeq_dec (iy2 - iy1) 0) as [Hh | Hh].
    + unfold convert_to_yolo_format. cbn [fsub PyFloat_Q].
      rewrite !(py_truediv_Q_ok _ _ Hw). cbn [mbind Result_bind].
      rewrite !(py_truediv_Q_zero _ _ Hh). cbn [mbind Result_bind].
      split; [intros [= <-]; tauto | now intros [-> _]].
    + rewrite convert_to_yolo_format_Q by assumption.
      split; [discriminate | intros [_ [H | H]]; contradiction].
Qed.

(** A ratio of a part to a positive whole lies between 0 and 1. *)
Lemma Qdiv_unit (t h : Q) : (0 < h)%Q -> (0 <= t)%Q -> (t <= h)%Q ->
  (0 <= t / h /\ t / h <= 1)%Q.
Proof. intros Hh H0 H1. apply Qdiv_bounds; lra. Qed.

Lemma Qdiv_le_mono (s t h : Q) : (0 < h)%Q -> (s <= t)%Q -> (s / h <= t / h)%Q.
Proof.
  intros Hh Hst. unfold Qdiv. apply Qmult_le_compat_r; [exact Hst|].
  apply Qlt_le_weak, Qinv_lt_0_compat, Hh.
Qed.

(** X2: in exact arithmetic, for an object box that lies within an image
    box of positive width and height, [convert_to_yolo_format] returns a
    label of the given class whose box is normalized: centre, width and
    height are between 0 and 1, and the box spanned by them stays in the
    unit square. In binary64 the box can leave the unit square by a rounding
    error ([normalized_binary64_overshoot]). *)
Theorem convert_to_yolo_format_normalized
    (ox1 oy1 ox2 oy2 ix1 iy1 ix2 iy2 : Q) (c : Z) :
  (ix1 < ix2)%Q -> (iy1 < iy2)%Q ->
  bbox_within (ox1, oy1, ox2, oy2) (ix1, iy1, ix2, iy2) ->
  exists parts,
    convert_to_yolo_format (ox1, oy1, ox2, oy2) (ix1, iy1, ix2, iy2) c = Ok parts /\
    yolo_class parts = c /\
    normalized parts /\
    (0 <= yolo_x_center parts <= 1 /\ 0 <= yolo_y_center parts <= 1 /\
     0 <= yolo_width parts <= 1 /\ 0 <= yolo_height parts <= 1)%Q.
Proof.
  intros Hx Hy (H1 & H2 & H3 & H4 & H5 & H6).
  rewrite convert_to_yolo_format_Q by lra.
  eexists. split; [reflexivity|]. split; [reflexivity|].
  unfold normalized. cbn [yolo_x_center yolo_y_center yolo_width yolo_height].
  destruct (Qdiv_unit (ox1 - ix1) (ix2 - ix1)) as [A0 A1]; try lra.
  destruct (Qdiv_unit (ox2 - ix1) (ix2 - ix1)) as [B0 B1]; try lra.
  destruct (Qdiv_unit (iy2 - oy2) (iy2 - iy1)) as [C0 C1]; try lra.
  destruct (Qdiv_unit (iy2 - oy1) (iy2 - iy1)) as [D0 D1]; try lra.
  pose proof (Qdiv_le_mono (ox1 - ix1) (ox2 - ix1) (ix2 - ix1) ltac:(lra) ltac:(lra)) as AB.
  pose proof (Qdiv_le_mono (iy2 - oy2) (iy2 - oy1) (iy2 - iy1) ltac:(lra) ltac:(lra)) as CD.
  set (a := ((ox1 - ix1) / (ix2 - ix1))%Q) in *.
  set (b := ((ox2 - ix1) / (ix2 - ix1))%Q) in *.
  set (u := ((iy2 - oy2) / (iy2 - iy1))%Q) in *.
  set (v := ((iy2 - oy1) / (iy2 - iy1))%Q) in *.
  clearbody a b u v. clear - A0 A1 B0 B1 C0 C1 D0 D1 AB CD.
  rewrite !Qhalf. repeat split; lra.
Qed.

Lemma convert_to_yolo_format_normalized_witness :
  exists parts,
    convert_to_yolo_format (0, 2, 3, 8)%Q (0, 0, 10, 8)%Q 2 = Ok parts /\
    yolo_class parts = 2 /\
    normalized parts /\
    (0 <= yolo_x_center parts <= 1 /\ 0 <= yolo_y_center parts <= 1 /\
     0 <= yolo_width parts <= 1 /\ 0 <= yolo_height parts <= 1)%Q.
Proof.
  apply (convert_to_yolo_format_normalized 0 2 3 8 0 0 10 8 2);
    [reflexivity | reflexivity |].
  cbn. repeat split; lra.
Defined.

(** X3: decoding a label against bounds of non-zero width and height, as
    [bboxes_from_yolo_output] does, and encoding the box again with
    [convert_to_yolo_format] gives the label back. *)
Theorem yolo_decode_encode (bounds : BBox Q) (parts : YoloRecord Q) :
  let '(b0, b1, b2, b3) := bounds in
  ~ (b2 - b0 == 0)%Q -> ~ (b3 - b1 == 0)%Q ->
  exists parts',
    convert_to_yolo_format (bbox_from_yolo_record bounds parts) bounds
      (yolo_class parts) = Ok parts' /\
    yolo_eqQ parts' parts.
Proof.
  destruct bounds as [[[b0 b1] b2] b3]. intros Hw Hh.
  unfold bbox_from_yolo_record. cbn [fadd fsub fmul fdiv ftwo PyFloat_Q].
  rewrite convert_to_yolo_format_Q by assumption.
  eexists. split; [reflexivity|].
  unfold yolo_eqQ. cbn [yolo_class yolo_x_center yolo_y_center yolo_width yolo_height].
  split; [reflexivity|]. repeat split; field; assumption.
Qed.

Lemma yolo_decode_encode_witness :
  exists parts',
    convert_to_yolo_format
      (bbox_from_yolo_record (0, 0, 10, 8)%Q (MkYolo 3 (1 # 2) (1 # 4) (1 # 5) (1 # 8)))
      (0, 0, 10, 8)%Q 3 = Ok parts' /\
    yolo_eqQ parts' (MkYolo 3 (1 # 2) (1 # 4) (1 # 5) (1 # 8)).
Proof.
  apply (yolo_decode_encode (0, 0, 10, 8)%Q (MkYolo 3 (1 # 2) (1 # 4) (1 # 5) (1 # 8)));
    discriminate.
Defined.

(** X4: in exact arithmetic, a normalized label decodes, as in
    [bboxes_from_yolo_output], to a well-ordered box within the bounds of
    the image. In binary64 the box can pass the bounds by a rounding error
    ([decoded_box_binary64_overshoot]). *)
Theorem bbox_from_yolo_record_within (bounds : BBox Q) (parts : YoloRecord Q) :
  let '(b0, b1, b2, b3) := bounds in
  (b0 <= b2)%Q -> (b1 <= b3)%Q -> normalized parts ->
  bbox_within (bbox_from_yolo_record bounds parts) bounds.
Proof.
  destruct bounds as [[[b0 b1] b2] b3]. intros Hx Hy.
  destruct parts as [c xc yc w h]. unfold normalized, bbox_from_yolo_record, bbox_within.
  cbn [fadd fsub fmul fdiv ftwo PyFloat_Q yolo_x_center yolo_y_center yolo_width yolo_height].
  rewrite !Qhalf. intros (Hw & Hh & X0 & X1 & Y0 & Y1).
  repeat split; nra.
Qed.

Lemma bbox_from_yolo_record_within_witness :
  bbox_within
    (bbox_from_yolo_record (0, 0, 10, 8)%Q (MkYolo 3 (1 # 2) (1 # 4) (1 # 5) (1 # 8)))
    (0, 0, 10, 8)%Q.
Proof.
  apply (bbox_from_yolo_record_within (0, 0, 10, 8)%Q
           (MkYolo 3 (1 # 2) (1 # 4) (1 # 5) (1 # 8))); try discriminate.
  unfold normalized. cbn. repeat split; discriminate.
Defined.

(** X5: in exact arithmetic, labels do not depend on the origin or the unit
    of the coordinates: moving and scaling the object box and the image box
    together leaves the result of [convert_to_yolo_format] unchanged. In
    binary64 the results can differ by rounding errors
    ([shifted_boxes_binary64_differ]). *)
Theorem convert_to_yolo_format_affine (k dx dy : Q) (obj img : BBox Q) (c : Z)
    (parts : YoloRecord Q) :
  ~ (k == 0)%Q ->
  convert_to_yolo_format obj img c = Ok parts ->
  exists parts',
    convert_to_yolo_format (bbox_affine k dx dy obj) (bbox_affine k dx dy img) c
      = Ok parts' /\
    yolo_eqQ parts' parts.
Proof.
  destruct obj as [[[ox1 oy1] ox2] oy2], img as [[[ix1 iy1] ix2] iy2].
  intros Hk Hok.
  destruct (Qeq_dec (ix2 - ix1) 0) as [Hw | Hw].
  { rewrite convert_to_yolo_format_zero in Hok by tauto. discriminate. }
  destruct (Qeq_dec (iy2 - iy1) 0) as [Hh | Hh].
  { rewrite convert_to_yolo_format_zero in Hok by tauto. discriminate. }
  rewrite convert_to_yolo_format_Q in Hok by assumption. injection Hok as <-.
  unfold bbox_affine.
  assert (Hw' : ~ (k * ix2 + dx - (k * ix1 + dx) == 0)%Q).
  { intros E. apply Hw.
    assert (E' : (k * (ix2 - ix1) == 0)%Q) by (rewrite <- E; ring).
    apply Qmult_integral in E' as [E' | E']; [contradiction | exact E']. }
  assert (Hh' : ~ (k * iy2 + dy - (k * iy1 + dy) == 0)%Q).
  { intros E. apply Hh.
    assert (E' : (k * (iy2 - iy1) == 0)%Q) by (rewrite <- E; ring).
    apply Qmult_integral in E' as [E' | E']; [contradiction | exact E']. }
  rewrite convert_to_yolo_format_Q by assumption.
  eexists. split; [reflexivity|].
  unfold yolo_eqQ. cbn [yolo_class yolo_x_center yolo_y_center yolo_width yolo_height].
  split; [reflexivity|].
  repeat split; field; repeat split; try assumption.
Qed.

Lemma convert_to_yolo_format_affine_witness :
  exists parts',
    convert_to_yolo_format (bbox_affine 2 500000 6700000 (1, 2, 3, 5)%Q)
      (bbox_affine 2 500000 6700000 (0, 0, 10, 8)%Q) 7 = Ok parts' /\
    yolo_eqQ parts' (MkYolo 7 (((1 - 0) / (10 - 0) + (3 - 0) / (10 - 0)) / 2)%Q
                              (((8 - 5) / (8 - 0) + (8 - 2) / (8 - 0)) / 2)%Q
                              ((3 - 0) / (10 - 0) - (1 - 0) / (10 - 0))%Q
                              ((8 - 2) / (8 - 0) - (8 - 5) / (8 - 0))%Q).
Proof.
  apply (convert_to_yolo_format_affine 2 500000 6700000 (1, 2, 3, 5)%Q
           (0, 0, 10, 8)%Q 7); [discriminate | reflexivity].
Defined.

(** *** The converters in binary64

    The three properties above are stated for exact arithmetic. On the
    floats of the code each of them can fail by a rounding error. *)

(** The object box [(0.1, 0.25, 1, 0.5)] touches the right edge of the image
    [(0, 0, 1, 1)]; its label has centre [0.55000000000000004] and width
    [0.90000000000000002], and centre plus half the width is more than 1. *)
Lemma normalized_binary64_overshoot :
  exists parts,
    convert_to_yolo_format (0x1.999999999999ap-4, 0.25, 1, 0.5)%float
      (0, 0, 1, 1)%float 0 = Ok parts /\
    yolo_x_center parts = 0x1.199999999999ap-1%float /\
    yolo_width parts = 0x1.ccccccccccccdp-1%float /\
    (1 < Q_of_float (yolo_x_center parts) + Q_of_float (yolo_width parts) / 2)%Q.
Proof. eexists. split; [vm_compute; reflexivity|]. vm_compute. repeat split. Qed.

(** The normalized label [(0.75, 0.25, 0.5, 0.5)], whose box touches the
    right edge, decoded against geographic bounds: the right edge of the box
    is [309747.94000000006], past the bound [309747.94]. *)
Lemma decoded_box_binary64_overshoot :
  let bounds := (0x1.2e69833333333p+18, 0x1.6e10f05c28f5cp+22,
                 0x1.2e7cfc28f5c29p+18, 0x1.6e1171c28f5c3p+22)%float in
  let '(x1, y1, x2, y2) :=
    bbox_from_yolo_record bounds (MkYolo 0 0.75 0.25 0.5 0.5)%float in
  x2 = 0x1.2e7cfc28f5c2ap+18%float /\
  PrimFloat.ltb 0x1.2e7cfc28f5c29p+18 x2 = true.
Proof. vm_compute. split; reflexivity. Qed.

(** The box [(0.25, 0.25, 0.3, 0.5)] in the image [(0, 0, 1, 1)], and both
    moved by [(1, 1)]: the widths of the two labels differ. *)
Lemma shifted_boxes_binary64_differ :
  exists parts parts',
    convert_to_yolo_format (0.25, 0.25, 0x1.3333333333333p-2, 0.5)%float
      (0, 0, 1, 1)%float 0 = Ok parts /\
    convert_to_yolo_format (1.25, 1.25, 0x1.4cccccccccccdp+0, 1.5)%float
      (1, 1, 2, 2)%float 0 = Ok parts' /\
    yolo_width parts = 0x1.9999999999998p-5%float /\
    yolo_width parts' = 0x1.99999999999a0p-5%float /\
    PrimFloat.eqb (yolo_width parts) (yolo_width parts') = false.
Proof.
  eexists. eexists. split; [vm_compute; reflexivity|].
  split; [vm_compute; reflexivity|]. vm_compute. repeat split.
Qed.

(** ** More on the tile grid *)

(** On floats the grid computation has two more errors: a NaN ratio, as
    with the bounds of an empty geometry, and an infinite ratio. *)
Lemma grid_dims64_nan_and_overflow :
  grid_dims64 (nan, nan, nan, nan) 600 600
    = Raise (ValueError "cannot convert float NaN to integer") /\
  grid_dims64 (0, 0, 0x1p+1000, 1)%float 0x1p-1000 1
    = Raise (OverflowError "cannot convert float infinity to integer").
Proof. split; vm_compute; reflexivity. Qed.

Lemma inject_Z_eq0 (n : Z) : (inject_Z n == 0)%Q <-> n = 0.
Proof.
  change 0%Q with (inject_Z 0). rewrite inject_Z_injective. tauto.
Qed.

(** What [grid_dims] returns, case by case. *)
Lemma grid_dims_cases (min_x min_y max_x max_y mw mh : Q) :
  (grid_ok (min_x, min_y, max_x, max_y) mw mh /\
   grid_dims (min_x, min_y, max_x, max_y) mw mh =
   Ok (Qceiling ((max_x - min_x) / mw), Qceiling ((max_y - min_y) / mh),
       ((max_x - min_x) / inject_Z (Qceiling ((max_x - min_x) / mw)))%Q,
       ((max_y - min_y) / inject_Z (Qceiling ((max_y - min_y) / mh)))%Q)) \/
  (~ grid_ok (min_x, min_y, max_x, max_y) mw mh /\
   grid_dims (min_x, min_y, max_x, max_y) mw mh = Raise ZeroDivisionError).
Proof.
  unfold grid_dims, grid_ok. cbv beta iota zeta.
  destruct (Qeq_dec mw 0) as [Hw | Hw].
  { right. rewrite (py_truediv_Q_zero _ _ Hw).
    split; [intros (H & _); exact (H Hw) | reflexivity]. }
  rewrite (py_truediv_Q_ok _ _ Hw). cbn [mbind Result_bind].
  destruct (Qeq_dec mh 0) as [Hh | Hh].
  { right. rewrite (py_truediv_Q_zero _ _ Hh).
    split; [intros (_ & H & _); exact (H Hh) | reflexivity]. }
  rewrite (py_truediv_Q_ok _ _ Hh). cbn [mbind Result_bind].
  destruct (Z.eq_dec (Qceiling ((max_x - min_x) / mw)) 0) as [Hc | Hc].
  { right.
    rewrite (py_truediv_Q_zero _ (inject_Z (Qceiling ((max_x - min_x) / mw))))
      by (apply inject_Z_eq0; exact Hc).
    split; [intros (_ & _ & H & _); exact (H Hc) | reflexivity]. }
  rewrite (py_truediv_Q_ok _ (inject_Z (Qceiling ((max_x - min_x) / mw))))
    by (rewrite inject_Z_eq0; exact Hc).
  cbn [mbind Result_bind].
  destruct (Z.eq_dec (Qceiling ((max_y - min_y) / mh)) 0) as [Hr | Hr].
  { right.
    rewrite (py_truediv_Q_zero _ (inject_Z (Qceiling ((max_y - min_y) / mh))))
      by (apply inject_Z_eq0; exact Hr).
    split; [intros (_ & _ & _ & H); exact (H Hr) | reflexivity]. }
  rewrite (py_truediv_Q_ok _ (inject_Z (Qceiling ((max_y - min_y) / mh))))
    by (rewrite inject_Z_eq0; exact Hr).
  left. split; [repeat split; assumption | reflexivity].
Qed.

Section GetTilesMore.
Context {G : Type} {geom : shapely.Geometry G}.

Lemma get_tiles_row_cases (row : Area G) (mw mh : Q) :
  (grid_ok (shapely.bounds (area_geometry row)) mw mh /\
   exists tiles, get_tiles_row row mw mh = Ok tiles /\
     length tiles = tile_count (shapely.bounds (area_geometry row)) mw mh /\
     forall t, In t tiles ->
       tile_fields t = area_fields row /\
       exists x1 y1 x2 y2,
         tile_inner t = shapely.intersection (shapely.box x1 y1 x2 y2)
                          (area_geometry row)) \/
  (~ grid_ok (shapely.bounds (area_geometry row)) mw mh /\
   get_tiles_row row mw mh = Raise ZeroDivisionError).
Proof.
  unfold get_tiles_row, tile_count.
  destruct (shapely.bounds (area_geometry row)) as [[[min_x min_y] max_x] max_y].
  destruct (grid_dims_cases min_x min_y max_x max_y mw mh) as [[Hok ->] | [Hbad ->]].
  - left. split; [exact Hok|]. cbn [mbind Result_bind mret Result_ret].
    eexists. split; [reflexivity|]. split.
    + rewrite length_map, length_prod. unfold py_range.
      now rewrite !length_map, !length_seq.
    + intros t Hin. apply in_map_iff in Hin as ([i j] & <- & _). unfold make_tile.
      destruct (grid_cell _ _ _ _ i j) as [[[x1 y1] x2] y2]. cbn.
      split; [reflexivity|]. now exists x1, y1, x2, y2.
  - right. split; [exact Hbad | reflexivity].
Qed.

(** X6: in exact arithmetic on finite numbers, as the bounds of a non-empty
    geometry are, [get_tiles] raises nothing but [ZeroDivisionError]; it
    returns exactly when, for every area, both maximum sizes and both grid
    counts are non-zero. On floats [math.ceil] also raises [ValueError] for
    a ratio that is NaN, as with the bounds of an empty geometry, and
    [OverflowError] for a ratio that is infinite
    ([grid_dims64_nan_and_overflow]). *)
Theorem get_tiles_ok_iff (areas : list (Area G)) (mw mh : Q) :
  ((exists tiles, get_tiles areas mw mh = Ok tiles) <->
   forall area, In area areas -> grid_ok (shapely.bounds (area_geometry area)) mw mh) /\
  (forall e, get_tiles areas mw mh = Raise e -> e = ZeroDivisionError).
Proof.
  induction areas as [|row rest [IHok IHerr]]; cbn [get_tiles].
  - split; [|discriminate]. split; [intros _ ? [] | intros _; now exists []].
  - destruct (get_tiles_row_cases row mw mh) as [(Hok & tiles & -> & _) | (Hbad & ->)];
      cbn [mbind Result_bind mret Result_ret].
    + destruct (get_tiles rest mw mh) as [more | e'] eqn:Hrest;
        cbn [mbind Result_bind mret Result_ret].
      * split; [|discriminate]. split; [|eauto].
        intros _ area [<- | Hin]; [exact Hok|]. apply IHok; eauto.
      * split; [|intros e [= <-]; now apply IHerr].
        split; [intros [? [=]]|]. intros Hall.
        destruct (proj2 IHok) as [? [=]]. intros area Hin. apply Hall. now right.
    + split; [|now intros e [= <-]].
      split; [intros [? [=]]|]. intros Hall. exfalso. apply Hbad, Hall. now left.
Qed.

(** X7: areas are tiled one after the other: the tiles of a concatenation
    are the tiles of the first part followed by those of the second, and an
    error in the first part comes first. *)
Theorem get_tiles_app (areas1 areas2 : list (Area G)) (mw mh : Q) :
  get_tiles (areas1 ++ areas2) mw mh =
  (tiles1 ← get_tiles areas1 mw mh;
   tiles2 ← get_tiles areas2 mw mh;
   mret (tiles1 ++ tiles2)).
Proof.
  induction areas1 as [|row rest IH]; cbn [app get_tiles].
  - cbn [mbind Result_bind mret Result_ret].
    destruct (get_tiles areas2 mw mh); reflexivity.
  - rewrite IH. destruct (get_tiles_row row mw mh) as [tiles | e];
      cbn [mbind Result_bind mret Result_ret]; [|reflexivity].
    destruct (get_tiles rest mw mh) as [more | e];
      cbn [mbind Result_bind mret Result_ret]; [|reflexivity].
    destruct (get_tiles areas2 mw mh) as [tiles2 | e];
      cbn [mbind Result_bind mret Result_ret]; [|reflexivity].
    now rewrite app_assoc.
Qed.


(** X9: every tile carries the non-geometry fields of the area it was cut
    from, unchanged, and its geometry is a box intersected with the geometry
    of that area. *)
Theorem get_tiles_fields (areas : list (Area G)) (mw mh : Q)
    (tiles : list (TileRow G)) (t : TileRow G) :
  get_tiles areas mw mh = Ok tiles -> In t tiles ->
  exists area x1 y1 x2 y2, In area areas /\
    tile_fields t = area_fields area /\
    tile_inner t = shapely.intersection (shapely.box x1 y1 x2 y2) (area_geometry area).
Proof.
  revert tiles. induction areas as [|row rest IH]; intros tiles; cbn [get_tiles].
  - intros [= <-] [].
  - destruct (get_tiles_row_cases row mw mh) as [(_ & ts & -> & _ & Hts) | (_ & ->)];
      cbn [mbind Result_bind mret Result_ret]; [|discriminate].
    destruct (get_tiles rest mw mh) as [more | e];
      cbn [mbind Result_bind mret Result_ret]; [|discriminate].
    intros [= <-] Hin. apply in_app_or in Hin as [Hin | Hin].
    + destruct (Hts t Hin) as (Hf & x1 & y1 & x2 & y2 & Hg).
      exists row, x1, y1, x2, y2. split; [now left | tauto].
    + destruct (IH more eq_refl Hin) as (a & x1 & y1 & x2 & y2 & Ha & Hrest).
      exists a, x1, y1, x2, y2. split; [now right | exact Hrest].
Qed.

End GetTilesMore.

Lemma Qceiling_nonpos_ratio (w m : Q) : (0 <= w)%Q -> (m < 0)%Q -> Qceiling (w / m) <= 0.
Proof.
  intros Hw Hm. rewrite <- (Qceiling_Z 0). apply Qceiling_resp_le.
  change (inject_Z 0) with 0%Q.
  assert (E : (w / m == - (w / - m))%Q) by (field; lra).
  assert (H0 : (0 <= w / - m)%Q) by (apply Qle_shift_div_l; lra).
  rewrite E. clear E. set (q := (w / - m)%Q) in *. clearbody q. lra.
Qed.

Section GetTilesNegative.
Context {G : Type} {geom : shapely.Geometry G}.

(** X10: a negative maximum tile width or height never gives a tile: the
    count of columns or rows is not positive, so the loops do not run. *)
Theorem get_tiles_negative_max (areas : list (Area G)) (mw mh : Q)
    (tiles : list (TileRow G)) :
  (mw < 0 \/ mh < 0)%Q ->
  (forall area, In area areas ->
     let '(min_x, min_y, max_x, max_y) := shapely.bounds (area_geometry area) in
     (min_x <= max_x /\ min_y <= max_y)%Q) ->
  get_tiles areas mw mh = Ok tiles -> tiles = [].
Proof.
  intros Hneg. revert tiles.
  induction areas as [|row rest IH]; intros tiles Hord; cbn [get_tiles].
  - now intros [= <-].
  - destruct (get_tiles_row_cases row mw mh) as [(_ & ts & -> & Hlen & _) | (_ & ->)];
      cbn [mbind Result_bind mret Result_ret]; [|discriminate].
    destruct (get_tiles rest mw mh) as [more | e];
      cbn [mbind Result_bind mret Result_ret]; [|discriminate].
    intros [= <-].
    rewrite (IH more (fun a Ha => Hord a (or_intror Ha)) eq_refl), app_nil_r.
    apply length_zero_iff_nil. rewrite Hlen.
    specialize (Hord row (or_introl eq_refl)). unfold tile_count.
    destruct (shapely.bounds (area_geometry row)) as [[[min_x min_y] max_x] max_y].
    destruct Hord as [Hx Hy]. destruct Hneg as [Hm | Hm].
    + pose proof (Qceiling_nonpos_ratio (max_x - min_x) mw ltac:(lra) Hm). lia.
    + pose proof (Qceiling_nonpos_ratio (max_y - min_y) mh ltac:(lra) Hm). lia.
Qed.

End GetTilesNegative.

Lemma get_tiles_negative_max_witness :
  exists tiles, get_tiles demo_areas (-180) (-180) = Ok tiles /\ tiles = [].
Proof.
  eexists. split; [vm_compute; reflexivity|].
  apply (get_tiles_negative_max demo_areas (-180) (-180)).
  - left. reflexivity.
  - intros area [<- | []]. cbn. split; discriminate.
  - vm_compute. reflexivity.
Defined.


Lemma get_tiles_fields_witness :
  exists tiles t, get_tiles demo_areas 600 600 = Ok tiles /\ In t tiles /\
    exists area x1 y1 x2 y2, In area demo_areas /\
      tile_fields t = area_fields area /\
      tile_inner t = shapely.intersection (shapely.box x1 y1 x2 y2) (area_geometry area).
Proof.
  eexists. eexists. split; [vm_compute; reflexivity|]. split; [left; reflexivity|].
  eapply (get_tiles_fields demo_areas 600 600); [vm_compute; reflexivity|].
  left. reflexivity.
Defined.

(** ** The inner tiles of an area *)

#[global] Instance Rect_BoundsLaws : BoundsLaws Rect.
Proof.
  split.
  - intros x1 y1 x2 y2 p Hx Hy. cbn [shapely.covers shapely.box Rect_Geometry].
    destruct (rect_box_cases x1 y1 x2 y2) as [(-> & _) | (_ & Hinv)];
      [reflexivity | lra].
  - intros [|x1 y1 x2 y2] p; cbn; [discriminate | tauto].
  - intros a b. cbn [shapely.is_empty shapely.intersection shapely.bounds Rect_Geometry].
    destruct a as [|ax1 ay1 ax2 ay2], b as [|bx1 by1 bx2 by2];
      cbn [rect_intersection]; try discriminate.
    destruct (rect_box_cases (Qmax ax1 bx1) (Qmax ay1 by1) (Qmin ax2 bx2) (Qmin ay2 by2))
      as [(-> & Hx & Hy) | (-> & _)]; [|discriminate].
    intros _. unfold bbox_within.
    pose proof (proj1 (Qmax_le_iff ax1 bx1 _) (Qle_refl _)) as [_ A].
    pose proof (proj1 (Qmax_le_iff ay1 by1 _) (Qle_refl _)) as [_ B].
    pose proof (proj1 (Qmin_ge_iff ax2 bx2 _) (Qle_refl _)) as [_ C].
    pose proof (proj1 (Qmin_ge_iff ay2 by2 _) (Qle_refl _)) as [_ D].
    tauto.
Qed.

(** A grid of [n_cols] by [n_rows] cells covers the rectangle it spans. *)
Lemma grid_cells_cover (min_x min_y tw th : Q) (n_cols n_rows : Z) (x y : Q) :
  (0 < tw)%Q -> (0 < th)%Q -> 1 <= n_cols -> 1 <= n_rows ->
  (min_x <= x /\ x <= min_x + inject_Z n_cols * tw /\
   min_y <= y /\ y <= min_y + inject_Z n_rows * th)%Q <->
  exists ij, In ij (list_prod (py_range n_cols) (py_range n_rows)) /\
    in_bbox (grid_cell min_x min_y tw th (fst ij) (snd ij)) (x, y) = true.
Proof.
  intros Htw Hth Hc Hr. split.
  - intros (H1 & H2 & H3 & H4).
    destruct (proj1 (steps_cover min_x tw x n_cols Htw Hc)) as (i & Hi & Hix);
      [split; assumption|].
    destruct (proj1 (steps_cover min_y th y n_rows Hth Hr)) as (j & Hj & Hjy);
      [split; assumption|].
    exists (i, j). split.
    + apply in_prod; now apply In_py_range.
    + unfold grid_cell. cbn [fst snd]. apply in_bbox_iff. tauto.
  - intros ([i j] & Hin & Hp). apply in_prod_iff in Hin as [Hi Hj].
    apply In_py_range in Hi, Hj.
    unfold grid_cell in Hp. cbn [fst snd] in Hp.
    apply in_bbox_iff in Hp as (H1 & H2 & H3 & H4).
    pose proof (proj2 (steps_cover min_x tw x n_cols Htw Hc)
                  (ex_intro _ i (conj Hi (conj H1 H2)))) as Hxx.
    pose proof (proj2 (steps_cover min_y th y n_rows Hth Hr)
                  (ex_intro _ j (conj Hj (conj H3 H4)))) as Hyy.
    tauto.
Qed.

(** The interior of a cell meets no other cell. *)
Lemma grid_cells_disjoint (min_x min_y tw th : Q) (ij ij' : Z * Z) (p : Point) :
  (0 < tw)%Q -> (0 < th)%Q -> ij <> ij' ->
  in_interior (grid_cell min_x min_y tw th (fst ij) (snd ij)) p = true ->
  in_bbox (grid_cell min_x min_y tw th (fst ij') (snd ij')) p = false.
Proof.
  destruct ij as [i j], ij' as [i' j'], p as [x y]. intros Htw Hth Hne Hint.
  unfold grid_cell in *. cbn [fst snd] in *.
  apply in_interior_iff in Hint as (H1 & H2 & H3 & H4).
  destruct (in_bbox _ _) eqn:E; [|reflexivity]. exfalso.
  apply in_bbox_iff in E as (H5 & H6 & H7 & H8).
  destruct (Z.eq_dec i i') as [-> | Hi].
  - assert (Hj : j <> j') by congruence.
    apply (steps_disjoint min_y th y j j' Hth Hj); split; assumption.
  - apply (steps_disjoint min_x tw x i i' Htw Hi); split; assumption.
Qed.

Section InnerTilesCover.
Context {G : Type} {geom : shapely.Geometry G}
        {laws : shapely.GeometryLaws G} {blaws : BoundsLaws G}.

Lemma covers_make_tile (row : Area G) (min_x min_y tw th : Q) (ij : Z * Z)
    (p : Point) :
  (0 < tw)%Q -> (0 < th)%Q ->
  shapely.covers (tile_inner (make_tile row min_x min_y tw th ij)) p =
  in_bbox (grid_cell min_x min_y tw th (fst ij) (snd ij)) p &&
  shapely.covers (area_geometry row) p.
Proof.
  intros Htw Hth. destruct ij as [i j]. unfold make_tile, grid_cell.
  cbn [fst snd tile_inner].
  rewrite shapely.covers_intersection, covers_box; [reflexivity | nra | nra].
Qed.

(** X11: in exact arithmetic, the inner tiles of an area of positive width
    and height cover it exactly: a point lies in the area if and only if it
    lies in the inner tile of some grid cell; and a point strictly inside
    one cell lies in no other inner tile. In binary64 the last column can
    end short of the area, by a rounding error. *)
Theorem inner_tiles_cover_area (row : Area G) (min_x min_y max_x max_y mw mh : Q) :
  shapely.bounds (area_geometry row) = (min_x, min_y, max_x, max_y) ->
  (min_x < max_x)%Q -> (min_y < max_y)%Q -> (0 < mw)%Q -> (0 < mh)%Q ->
  let n_cols := Qceiling ((max_x - min_x) / mw) in
  let n_rows := Qceiling ((max_y - min_y) / mh) in
  let tw := ((max_x - min_x) / inject_Z n_cols)%Q in
  let th := ((max_y - min_y) / inject_Z n_rows)%Q in
  let grid := list_prod (py_range n_cols) (py_range n_rows) in
  let tile := make_tile row min_x min_y tw th in
  get_tiles [row] mw mh = Ok (map tile grid) /\
  (forall p, shapely.covers (area_geometry row) p = true <->
     exists ij, In ij grid /\ shapely.covers (tile_inner (tile ij)) p = true) /\
  (forall ij ij' p, In ij grid -> In ij' grid -> ij <> ij' ->
     in_interior (grid_cell min_x min_y tw th (fst ij) (snd ij)) p = true ->
     shapely.covers (tile_inner (tile ij')) p = false).
Proof.
  intros Hb Hx Hy Hmw Hmh n_cols n_rows tw th grid tile.
  destruct (ceil_steps (max_x - min_x) mw ltac:(lra) Hmw)
    as (Hc & _ & Htw & _ & Ew).
  destruct (ceil_steps (max_y - min_y) mh ltac:(lra) Hmh)
    as (Hr & _ & Hth & _ & Eh).
  fold n_cols in Hc, Htw, Ew. fold tw in Htw, Ew.
  fold n_rows in Hr, Hth, Eh. fold th in Hth, Eh.
  assert (Hdims : get_tiles [row] mw mh = Ok (map tile grid)).
  { rewrite get_tiles_single. unfold get_tiles_row. rewrite Hb.
    rewrite grid_dims_ok by assumption. reflexivity. }
  unfold tile in *. clear tile. clearbody tw th. clearbody n_cols n_rows.
  split; [exact Hdims|]. clear Hdims. split.
  - intros [x y]. split.
    + intros Hp. pose proof (covers_in_bounds _ _ Hp) as Hin. rewrite Hb in Hin.
      apply in_bbox_iff in Hin as (H1 & H2 & H3 & H4).
      destruct (proj1 (grid_cells_cover min_x min_y tw th n_cols n_rows x y
                         Htw Hth Hc Hr)) as (ij & Hij & Hcell);
        [repeat split; lra|].
      exists ij. split; [exact Hij|].
      rewrite covers_make_tile by assumption. now rewrite Hcell, Hp.
    + intros (ij & _ & Hp). rewrite covers_make_tile in Hp by assumption.
      now apply andb_true_iff in Hp.
  - intros ij ij' p _ _ Hne Hint. rewrite covers_make_tile by assumption.
    now rewrite (grid_cells_disjoint min_x min_y tw th ij ij' p Htw Hth Hne Hint).
Qed.

End InnerTilesCover.

Lemma inner_tiles_cover_area_witness :
  get_tiles [MkArea [("split", "train")] (MkRect 0 0 1000 1000)] 600 600
  = Ok (map (make_tile (MkArea [("split", "train")] (MkRect 0 0 1000 1000))
               0 0 (1000 / inject_Z 2) (1000 / inject_Z 2))
            [(0, 0); (0, 1); (1, 0); (1, 1)]) /\
  forall p, shapely.covers (MkRect 0 0 1000 1000) p = true <->
    exists ij, In ij [(0, 0); (0, 1); (1, 0); (1, 1)] /\
      shapely.covers
        (tile_inner (make_tile (MkArea [("split", "train")] (MkRect 0 0 1000 1000))
                       0 0 (1000 / inject_Z 2) (1000 / inject_Z 2) ij)) p = true.
Proof.
  pose proof (inner_tiles_cover_area
                (MkArea [("split", "train")] (MkRect 0 0 1000 1000))
                0 0 1000 1000 600 600 eq_refl eq_refl eq_refl eq_refl eq_refl)
    as (Htiles & Hcover & _).
  split; [exact Htiles | exact Hcover].
Defined.

(** ** Distinct tile identifiers *)










Section TileIdsUnique.
Context {G : Type} {geom : shapely.Geometry G}.


End TileIdsUnique.


(** ** More on alpha normalization *)

(** What [replace_geotiff_alpha] computes from the data it read. *)
Lemma replace_geotiff_alpha_cases (input_path output_path : string)
    (files : gmap string Raster) :
  (files !! input_path = None /\
   replace_geotiff_alpha input_path output_path files = Raise RasterioIOError) \/
  (exists src, files !! input_path = Some src /\
     raster_count src <> 3 /\ raster_count src <> 4 /\
     replace_geotiff_alpha input_path output_path files
       = Raise (ValueError ("Unsupported band count: " ++ py_str (raster_count src)))) \/
  (exists src, files !! input_path = Some src /\
     raster_count src = 4 /\ raster_dtype src = "int8"%string /\
     replace_geotiff_alpha input_path output_path files
       = Raise (OverflowError "Python integer 255 out of bounds for int8")) \/
  (exists src dst, files !! input_path = Some src /\
     (raster_count src = 3 \/
      raster_count src = 4 /\ raster_dtype src <> "int8"%string) /\
     raster_count dst = 3 /\ raster_dtype dst = raster_dtype src /\
     (raster_count src = 3 -> raster_data dst = raster_data src) /\
     replace_geotiff_alpha input_path output_path files
       = Ok (<[output_path := dst]> files)).
Proof.
  unfold replace_geotiff_alpha.
  destruct (files !! input_path) as [src|] eqn:Hsrc; [|left; auto].
  right. unfold raster_count.
  destruct (raster_data src) as [|r [|g [|b [|a [|x rest]]]]] eqn:Hdata;
    try (left; exists src; rewrite Hdata; cbn; repeat split;
         solve [reflexivity | lia]).
  - right. right. exists src, (MkRaster (raster_dtype src) [r; g; b]).
    rewrite Hdata. cbn. split; [reflexivity|]. split; [left; reflexivity|].
    split; [reflexivity|]. split; [reflexivity|]. split; reflexivity.
  - right. cbn [length Z.of_nat Z.eqb Pos.of_succ_nat Pos.succ Pos.eqb].
    destruct (String.eqb_spec (raster_dtype src) "int8") as [Hd | Hd].
    + left. exists src. rewrite Hd, Hdata. repeat split.
    + right.
      exists src, (MkRaster (raster_dtype src)
                     [assign_masked r (alpha_mask a) 255;
                      assign_masked g (alpha_mask a) 255;
                      assign_masked b (alpha_mask a) 255]).
      rewrite Hdata, !(np_setitem_255 _ _ _ Hd). cbn.
      split; [reflexivity|]. split; [right; split; [reflexivity | exact Hd]|].
      split; [reflexivity|]. split; [reflexivity|]. split; [lia | reflexivity].
  - left. exists src. rewrite Hdata. cbn [length]. repeat split; try lia.
    destruct (Z.eqb_spec (Z.of_nat (S (S (S (S (S (length rest))))))) 4); [lia|].
    destruct (Z.eqb_spec (Z.of_nat (S (S (S (S (S (length rest))))))) 3); [lia|].
    reflexivity.
Qed.

(** X13: [replace_geotiff_alpha] returns exactly when the input file
    exists and has 3 bands, or 4 bands of a dtype other than [int8]. *)
Theorem replace_geotiff_alpha_ok_iff (input_path output_path : string)
    (files : gmap string Raster) :
  (exists files', replace_geotiff_alpha input_path output_path files = Ok files') <->
  exists src, files !! input_path = Some src /\
    (raster_count src = 3 \/
     raster_count src = 4 /\ raster_dtype src <> "int8"%string).
Proof.
  destruct (replace_geotiff_alpha_cases input_path output_path files)
    as [(Hnone & ->) | [(src & Hsrc & H3 & H4 & ->)
       | [(src & Hsrc & H4 & Hd & ->) | (src & dst & Hsrc & Hc & _ & _ & _ & ->)]]].
  - split; [intros [? [=]] | intros (src & Hsrc & _); congruence].
  - split; [intros [? [=]]|]. intros (src' & Hsrc' & Hc).
    assert (src' = src) by congruence. subst. lia.
  - split; [intros [? [=]]|]. intros (src' & Hsrc' & Hc).
    assert (src' = src) by congruence. subst. destruct Hc as [Hc | [_ Hc]];
      [lia | contradiction].
  - split; eauto.
Qed.

(** X14: when [replace_geotiff_alpha] returns, the output file holds a
    3-band raster with the data type of the input, and no other file has
    changed. *)
Theorem replace_geotiff_alpha_output (input_path output_path : string)
    (files files' : gmap string Raster) :
  replace_geotiff_alpha input_path output_path files = Ok files' ->
  exists src dst,
    files !! input_path = Some src /\ files' !! output_path = Some dst /\
    raster_count dst = 3 /\ raster_dtype dst = raster_dtype src /\
    forall path, path <> output_path -> files' !! path = files !! path.
Proof.
  destruct (replace_geotiff_alpha_cases input_path output_path files)
    as [(_ & ->) | [(src & _ & _ & _ & ->)
       | [(src & _ & _ & _ & ->) | (src & dst & Hsrc & _ & Hc & Hd & _ & ->)]]];
    try discriminate.
  intros [= <-]. exists src, dst. split; [exact Hsrc|].
  split; [apply lookup_insert_eq|]. split; [exact Hc|]. split; [exact Hd|].
  intros path Hne. now apply lookup_insert_ne.
Qed.

(** X15: rewriting a file in place with [replace_geotiff_alpha] a second
    time changes nothing. *)
Theorem replace_geotiff_alpha_idempotent (path : string)
    (files files' : gmap string Raster) :
  replace_geotiff_alpha path path files = Ok files' ->
  replace_geotiff_alpha path path files' = Ok files'.
Proof.
  destruct (replace_geotiff_alpha_cases path path files)
    as [(_ & ->) | [(src & _ & _ & _ & ->)
       | [(src & _ & _ & _ & ->) | (src & dst & Hsrc & _ & Hc & Hd & _ & ->)]]];
    try discriminate.
  intros [= <-].
  destruct (replace_geotiff_alpha_cases path path (<[path := dst]> files))
    as [(Hnone & _) | [(src' & Hsrc' & H3 & _)
       | [(src' & Hsrc' & H4 & _)
         | (src' & dst' & Hsrc' & _ & _ & Hd' & Hdata & ->)]]].
  - rewrite lookup_insert_eq in Hnone. discriminate.
  - rewrite lookup_insert_eq in Hsrc'. injection Hsrc' as <-. contradiction.
  - rewrite lookup_insert_eq in Hsrc'. injection Hsrc' as <-. lia.
  - rewrite lookup_insert_eq in Hsrc'. injection Hsrc' as <-.
    specialize (Hdata Hc). rewrite insert_insert_eq.
    destruct dst as [t d], dst' as [t' d']. cbn in *. now subst.
Qed.

(** Without a transparent pixel the masked assignment changes nothing. *)
Lemma assign_masked_opaque (h w : nat) (band a : Band) (v : Z) :
  has_shape h w [band; a] ->
  (forall i j va, pixel a i j = Some va -> va <> 0) ->
  assign_masked band (alpha_mask a) v = band.
Proof.
  intros Hshape Hopaque.
  destruct (has_shape_lookup h w _ band Hshape ltac:(now left)) as [Hbl Hbr].
  destruct (has_shape_lookup h w _ a Hshape ltac:(right; now left)) as [Hal Har].
  apply list_eq. intros i. unfold assign_masked, alpha_mask.
  rewrite lookup_zip_with, list_lookup_fmap.
  destruct (band !! i) as [brow|] eqn:Hbrow; [|reflexivity]. cbn.
  assert (Hi : (i < length a)%nat).
  { rewrite Hal, <- Hbl. eapply lookup_lt_Some. exact Hbrow. }
  destruct (lookup_lt_is_Some_2 a i Hi) as [arow Harow]. rewrite Harow. cbn.
  f_equal. apply list_eq. intros j.
  rewrite lookup_zip_with, list_lookup_fmap.
  destruct (brow !! j) as [vb|] eqn:Hvb; [|reflexivity]. cbn.
  assert (Hj : (j < length arow)%nat).
  { rewrite (Har _ _ Harow), <- (Hbr _ _ Hbrow). eapply lookup_lt_Some. exact Hvb. }
  destruct (lookup_lt_is_Some_2 arow j Hj) as [va Hva]. rewrite Hva. cbn.
  assert (Hne : va <> 0).
  { apply (Hopaque i j). unfold pixel. rewrite Harow. exact Hva. }
  destruct (Z.eqb_spec va 0); [contradiction | reflexivity].
Qed.

(** X16: a 4-band raster of a dtype other than [int8] without any fully
    transparent pixel only loses its alpha band: the three colour bands are
    written unchanged. *)
Theorem replace_geotiff_alpha_opaque (files : gmap string Raster)
    (input_path output_path : string) (src : Raster) (r g b a : Band) (h w : nat) :
  files !! input_path = Some src ->
  raster_dtype src <> "int8"%string ->
  raster_data src = [r; g; b; a] -> has_shape h w (raster_data src) ->
  (forall i j va, pixel a i j = Some va -> va <> 0) ->
  replace_geotiff_alpha input_path output_path files
  = Ok (<[output_path := MkRaster (raster_dtype src) [r; g; b]]> files).
Proof.
  intros Hsrc Hdtype Hdata Hshape Hopaque. unfold replace_geotiff_alpha, raster_count.
  rewrite Hsrc, Hdata. cbn [length Z.of_nat Z.eqb Pos.of_succ_nat Pos.succ Pos.eqb].
  rewrite !(np_setitem_255 _ _ _ Hdtype). cbn [mbind Result_bind mret Result_ret].
  rewrite Hdata in Hshape. unfold has_shape in Hshape.
  apply Forall_cons in Hshape as [Hr Hshape].
  apply Forall_cons in Hshape as [Hg Hshape].
  apply Forall_cons in Hshape as [Hb Hshape].
  apply Forall_cons in Hshape as [Ha _].
  assert (Hra : has_shape h w [r; a]) by (repeat constructor; tauto).
  assert (Hga : has_shape h w [g; a]) by (repeat constructor; tauto).
  assert (Hba : has_shape h w [b; a]) by (repeat constructor; tauto).
  rewrite (assign_masked_opaque h w r a 255 Hra Hopaque),
    (assign_masked_opaque h w g a 255 Hga Hopaque),
    (assign_masked_opaque h w b a 255 Hba Hopaque). reflexivity.
Qed.

Lemma replace_geotiff_alpha_opaque_witness :
  replace_geotiff_alpha "in.tif" "out.tif" {["in.tif"%string := demo_opaque]}
  = Ok (<["out.tif"%string := MkRaster "uint8" [[[10; 20]]; [[30; 40]]; [[50; 60]]]]>
          {["in.tif"%string := demo_opaque]}).
Proof.
  apply (replace_geotiff_alpha_opaque {["in.tif"%string := demo_opaque]}
           "in.tif" "out.tif" demo_opaque
           [[10; 20]] [[30; 40]] [[50; 60]] [[255; 128]] 1 2).
  - vm_compute. reflexivity.
  - discriminate.
  - reflexivity.
  - unfold has_shape, demo_opaque. cbn. repeat constructor.
  - intros [|[|i]] [|[|[|j]]] va; cbn; intros [= <-] || discriminate; discriminate.
Defined.

Lemma replace_geotiff_alpha_output_witness :
  exists src dst,
    ({["tile.tif"%string := demo_rgba]} : gmap string Raster) !! "tile.tif"%string
      = Some src /\
    (<["tile.tif"%string := MkRaster "uint8" [[[255; 20]]; [[255; 40]]; [[255; 60]]]]>
       {["tile.tif"%string := demo_rgba]} : gmap string Raster) !! "tile.tif"%string
      = Some dst /\
    raster_count dst = 3 /\ raster_dtype dst = raster_dtype src /\
    forall path, path <> "tile.tif"%string ->
      (<["tile.tif"%string := MkRaster "uint8" [[[255; 20]]; [[255; 40]]; [[255; 60]]]]>
         {["tile.tif"%string := demo_rgba]} : gmap string Raster) !! path
      = ({["tile.tif"%string := demo_rgba]} : gmap string Raster) !! path.
Proof.
  apply (replace_geotiff_alpha_output "tile.tif" "tile.tif"
           {["tile.tif"%string := demo_rgba]}).
  reflexivity.
Defined.

Lemma replace_geotiff_alpha_idempotent_witness :
  replace_geotiff_alpha "tile.tif" "tile.tif"
    (<["tile.tif"%string := MkRaster "uint8" [[[255; 20]]; [[255; 40]]; [[255; 60]]]]>
       {["tile.tif"%string := demo_rgba]})
  = Ok (<["tile.tif"%string := MkRaster "uint8" [[[255; 20]]; [[255; 40]]; [[255; 60]]]]>
          {["tile.tif"%string := demo_rgba]}).
Proof.
  apply (replace_geotiff_alpha_idempotent "tile.tif" {["tile.tif"%string := demo_rgba]}).
  reflexivity.
Defined.

(** ** More on reassembling detections *)



Section CombineMore.
Context {G : Type} {geom : shapely.Geometry G}.
Implicit Types (labels : gmap string (list (YoloRecord Q)))
               (images : gmap string (GeoTiff G))
               (tiles : list (TileRow G)) (shape : string).

(** X19: every row of the combined output was decoded from the label file
    of a tile that has both files, and its centroid lies in the inner
    geometry of that tile. *)
Theorem combine_main_rows labels images tiles shape (out : list (Z * G))
    (row : Z * G) :
  combine_main labels images tiles shape = Ok out -> In row out ->
  exists tile orthophoto lines part,
    In tile tiles /\
    images !! geotiff_name (tile_id tile) = Some orthophoto /\
    labels !! labels_name (tile_id tile) = Some lines /\
    tile_detections shape orthophoto lines = Ok part /\
    In row part /\
    shapely.covers (tile_inner tile) (shapely.centroid (snd row)) = true.
Proof.
  unfold combine_main.
  destruct (combine_parts labels images tiles shape) as [parts | e] eqn:Hparts;
    cbn [mbind Result_bind]; [|discriminate].
  intros Hout Hin.
  assert (Hcat : In row (concat parts)).
  { unfold pd_concat in Hout. destruct parts; [discriminate|].
    now injection Hout as <-. }
  clear Hout Hin. revert parts Hparts Hcat.
  induction tiles as [|tile rest IH]; intros parts; cbn [combine_parts].
  - intros [= <-] [].
  - assert (Hskip : combine_parts labels images rest shape = Ok parts ->
              In row (concat parts) ->
              exists t orthophoto lines part,
                In t (tile :: rest) /\
                images !! geotiff_name (tile_id t) = Some orthophoto /\
                labels !! labels_name (tile_id t) = Some lines /\
                tile_detections shape orthophoto lines = Ok part /\
                In row part /\
                shapely.covers (tile_inner t) (shapely.centroid (snd row)) = true).
    { intros Hok Hcat.
      destruct (IH parts Hok Hcat) as (t & o & l & p & Ht & Hrest).
      exists t, o, l, p. split; [now right | exact Hrest]. }
    destruct (images !! geotiff_name (tile_id tile)) as [orthophoto|] eqn:Hi;
      [destruct (labels !! labels_name (tile_id tile)) as [lines|] eqn:Hl|];
      try exact Hskip.
    destruct (tile_detections shape orthophoto lines) as [part | e] eqn:Hdet;
      cbn [mbind Result_bind mret Result_ret]; [|discriminate].
    destruct (combine_parts labels images rest shape) as [ps | e];
      cbn [mbind Result_bind mret Result_ret]; [|discriminate].
    intros [= <-]. cbn [concat]. intros Hcat.
    apply in_app_or in Hcat as [Hcat | Hcat].
    + apply clip_by_centroid_In in Hcat as [Hp Hc].
      exists tile, orthophoto, lines, part. split; [now left | tauto].
    + destruct (IH ps eq_refl Hcat) as (t & o & l & p & Ht & Hrest).
      exists t, o, l, p. split; [now right | exact Hrest].
Qed.

End CombineMore.

Lemma combine_main_rows_witness :
  exists tile orthophoto lines part,
    In tile [demo_tile_a; demo_tile_b] /\
    demo_images !! geotiff_name (tile_id tile) = Some orthophoto /\
    demo_labels !! labels_name (tile_id tile) = Some lines /\
    tile_detections "rectangle" orthophoto lines = Ok part /\
    In demo_detection part /\
    shapely.covers (tile_inner tile) (shapely.centroid (snd demo_detection)) = true.
Proof.
  apply (combine_main_rows demo_labels demo_images [demo_tile_a; demo_tile_b]
           "rectangle" [demo_detection] demo_detection).
  - vm_compute. reflexivity.
  - left. reflexivity.
Defined.

(** ** Label files as text: parse errors *)



Section LabelTextTheorems.
Context {text : PyText} {G : Type} {geom : shapely.Geometry G}.
Implicit Types (labels : gmap string (list string))
               (images : gmap string (GeoTiff G))
               (tiles : list (TileRow G)) (shape : string).




(** What the decoder of one tile does with the text of a label file. *)
Lemma tile_detections_text_cases shape (orthophoto : GeoTiff G)
    (file : list string) :
  (~ supported shape /\
   tile_detections_text shape orthophoto file = Raise (shape_error shape)) \/
  (supported shape /\ exists e,
     read_lines file = Raise e /\
     tile_detections_text shape orthophoto file = Raise e) \/
  (supported shape /\ exists lines,
     read_lines file = Ok lines /\
     tile_detections_text shape orthophoto file
       = tile_detections shape orthophoto lines).
Proof.
  unfold tile_detections_text, tile_detections, supported.
  destruct (String.eqb_spec shape "oval") as [-> | Ho].
  - right. destruct (read_lines file) as [lines | e];
      cbn [mbind Result_bind]; [right | left];
      (split; [now left|]); eexists; split; reflexivity.
  - destruct (String.eqb_spec shape "rectangle") as [-> | Hr].
    + right. destruct (read_lines file) as [lines | e];
        cbn [mbind Result_bind]; [right | left];
        (split; [now right|]); eexists; split; reflexivity.
    + left. split; [tauto | reflexivity].
Qed.





(** On label files that read, the run over the text is the run over the
    parsed records. *)
Lemma combine_main_text_parsed labels
    (parsed : gmap string (list (YoloRecord Q))) images tiles shape :
  (forall name,
     match labels !! name with
     | Some file => exists lines,
         read_lines file = Ok lines /\ parsed !! name = Some lines
     | None => parsed !! name = None
     end) ->
  combine_main_text labels images tiles shape
  = combine_main parsed images tiles shape.
Proof.
  intros Hread. unfold combine_main_text, combine_main. f_equal.
  induction tiles as [|tile rest IH]; cbn [combine_parts_text combine_parts];
    [reflexivity|].
  specialize (Hread (labels_name (tile_id tile))).
  destruct (images !! geotiff_name (tile_id tile)) as [orthophoto|];
    [|exact IH].
  destruct (labels !! labels_name (tile_id tile)) as [file|].
  - destruct Hread as (lines & Hlines & ->).
    destruct (tile_detections_text_cases shape orthophoto file)
      as [(Hns & ->) | [(_ & e & He & _) | (_ & lines' & Hl' & ->)]].
    + now rewrite (tile_detections_unsupported shape orthophoto lines Hns).
    + congruence.
    + assert (lines' = lines) by congruence. subst. now rewrite IH.
  - rewrite Hread. exact IH.
Qed.

End LabelTextTheorems.


(** A blank line stops the decoder with [IndexError], and a field that is
    not a number with [ValueError]. *)
Lemma malformed_lines_raise :
  tile_detections_text (text := demo_text) "rectangle" (demo_geotiff 0 0 510 510)
    ["1 0 1 1 1"; ""]%string = Raise IndexError /\
  tile_detections_text (text := demo_text) "rectangle" (demo_geotiff 0 0 510 510)
    ["1 0 x 1 1"]%string
  = Raise (ValueError "could not convert string to float: 'x'").
Proof. split; vm_compute; reflexivity. Qed.

(** ** Reasoning about scripts *)

Lemma appended_same (P : Event -> Prop) (w w' : World) :
  w_log w' = w_log w -> appended P w w'.
Proof. intros E. exists []. rewrite E, app_nil_r. split; [reflexivity | constructor]. Qed.

Lemma appended_trans (P : Event -> Prop) (w1 w2 w3 : World) :
  appended P w1 w2 -> appended P w2 w3 -> appended P w1 w3.
Proof.
  intros (e1 & E1 & F1) (e2 & E2 & F2). exists (e1 ++ e2).
  rewrite E2, E1, app_assoc. split; [reflexivity | now apply Forall_app].
Qed.

Lemma bind_appended {A B} (P : Event -> Prop) (m : Script A) (f : A -> Script B)
    (w w' : World) (r : Result B) :
  (forall a w1, m w = (a, w1) -> appended P w w1) ->
  (forall a w1 r' w2, m w = (Ok a, w1) -> f a w1 = (r', w2) -> appended P w1 w2) ->
  (m ≫= f) w = (r, w') -> appended P w w'.
Proof.
  intros Hm Hf. unfold mbind, Script_bind.
  destruct (m w) as [[a | e] w1] eqn:Em.
  - intros Ef. eapply appended_trans; [exact (Hm _ _ eq_refl)|].
    exact (Hf _ _ _ _ eq_refl Ef).
  - intros [= _ <-]. exact (Hm _ _ eq_refl).
Qed.

Lemma emit_appended (P : Event -> Prop) (e : Event) (w w' : World) (r : Result unit) :
  P e -> emit e w = (r, w') -> appended P w w'.
Proof.
  intros He [= _ <-]. exists [e]. split; [reflexivity | now constructor].
Qed.

Lemma lift_same {A} (x : Result A) (w w' : World) (r : Result A) :
  lift x w = (r, w') -> w' = w /\ r = x.
Proof. now intros [= <- <-]. Qed.

Lemma for_each_appended {A} (P : Event -> Prop) (xs : list A)
    (body : A -> Script unit) :
  (forall x w r w', In x xs -> body x w = (r, w') -> appended P w w') ->
  forall w r w', for_each xs body w = (r, w') -> appended P w w'.
Proof.
  induction xs as [|x rest IH]; intros Hbody w r w'; cbn [for_each].
  - intros [= _ <-]. now apply appended_same.
  - apply bind_appended.
    + intros a w1. apply Hbody. now left.
    + intros _ w1 r' w2 _. apply IH. intros y ? ? ? Hy. apply Hbody. now right.
Qed.

(** ** Cropping a tile *)

Section CropTile.
Context {G : Type} {geom : shapely.Geometry G}.

(** A crop that returns has written one file, of three bands, and nothing
    else. *)
Lemma crop_tile_ok (orthophoto : GeoTiff G) (outdir : string) (row : Tile G)
    (w w' : World) (tile : G) (split : string) :
  crop_tile orthophoto outdir row w = (Ok (tile, split), w') ->
  tile_outer row = Some tile /\
  column "split" (tile_fields (tile_row row)) = Ok split /\
  w_log w' = w_log w /\
  exists r, raster_count r = 3 /\
    w_rasters w'
    = <[(outdir ++ "/images/" ++ split ++ "/tile_" ++ tile_id (tile_row row)
           ++ ".tif")%string := r]> (w_rasters w).
Proof.
  unfold crop_tile, mbind, Script_bind, mret, Script_ret, lift, write_raster,
    on_rasters.
  destruct (tile_outer row) as [g|]; [|discriminate].
  destruct (column "split" _) as [s | e]; [|discriminate].
  cbn [w_rasters w_log].
  set (path := (outdir ++ "/images/" ++ s ++ "/tile_" ++ tile_id (tile_row row)
                  ++ ".tif")%string).
  destruct (replace_geotiff_alpha_cases path path
              (<[path := gt_crop_polygon orthophoto g]> (w_rasters w)))
    as [(_ & ->) | [(src & _ & _ & _ & ->)
       | [(src & _ & _ & _ & ->) | (src & dst & _ & _ & Hc & _ & _ & ->)]]];
    try discriminate.
  intros [= <- <- <-]. cbn [w_rasters w_log].
  split; [reflexivity|]. split; [reflexivity|]. split; [reflexivity|].
  exists dst. split; [exact Hc|]. apply insert_insert_eq.
Qed.

Lemma crop_tile_log (P : Event -> Prop) (orthophoto : GeoTiff G)
    (outdir : string) (row : Tile G) (w w' : World) (r : Result (G * string)) :
  crop_tile orthophoto outdir row w = (r, w') -> appended P w w'.
Proof.
  unfold crop_tile, mbind, Script_bind, mret, Script_ret, lift, write_raster,
    on_rasters.
  destruct (tile_outer row) as [g|];
    [|intros [= _ <-]; now apply appended_same].
  destruct (column "split" _) as [s | e];
    [|intros [= _ <-]; now apply appended_same].
  cbn [w_rasters w_log].
  destruct (replace_geotiff_alpha _ _ _);
    intros [= _ <-]; now apply appended_same.
Qed.

Lemma crop_tile_keeps (orthophoto : GeoTiff G) (outdir : string) (row : Tile G)
    (w w' : World) (x : G * string) (path : string) :
  crop_tile orthophoto outdir row w = (Ok x, w') ->
  three_band_at path w -> three_band_at path w'.
Proof.
  destruct x as [tile split]. intros Hok (r & Hr & Hc).
  apply crop_tile_ok in Hok as (_ & _ & _ & r' & Hc' & Hw).
  unfold three_band_at. rewrite Hw.
  set (p := (outdir ++ _)%string).
  destruct (decide (p = path)) as [<- | Hne].
  - exists r'. now rewrite lookup_insert_eq.
  - exists r. now rewrite lookup_insert_ne.
Qed.

Lemma emit_keeps (e : Event) (w w' : World) (r : Result unit) (path : string) :
  emit e w = (r, w') -> three_band_at path w -> three_band_at path w'.
Proof. intros [= _ <-]. exact (fun H => H). Qed.

(** After the cropping loop every tile of the table has its image. *)
Lemma crop_loop_images (orthophoto : GeoTiff G) (outdir : string)
    (tiles : list (Tile G)) (w w' : World) :
  for_each tiles (fun row => _ ← crop_tile orthophoto outdir row; mret tt) w
  = (Ok tt, w') ->
  (forall path, three_band_at path w -> three_band_at path w') /\
  forall row, In row tiles ->
    exists tile split,
      tile_outer row = Some tile /\
      column "split" (tile_fields (tile_row row)) = Ok split /\
      three_band_at (outdir ++ "/images/" ++ split ++ "/tile_"
                       ++ tile_id (tile_row row) ++ ".tif")%string w'.
Proof.
  revert w. induction tiles as [|row rest IH]; intros w; cbn [for_each].
  - intros [= <-]. split; [auto | intros ? []].
  - unfold mbind at 1, Script_bind at 1. unfold mbind at 1, Script_bind at 1.
    destruct (crop_tile orthophoto outdir row w) as [[[tile split] | e] w1] eqn:Hcrop;
      [|discriminate].
    unfold mret at 1, Script_ret at 1. intros Hrest.
    destruct (IH _ Hrest) as [Hkeep Hall]. split.
    + intros path Hp. apply Hkeep. exact (crop_tile_keeps _ _ _ _ _ _ _ Hcrop Hp).
    + intros row' [<- | Hin]; [|exact (Hall _ Hin)].
      pose proof (crop_tile_ok _ _ _ _ _ _ _ Hcrop) as (Ho & Hs & _ & r & Hc & Hw).
      exists tile, split. split; [exact Ho|]. split; [exact Hs|].
      apply Hkeep. exists r. rewrite Hw. split; [apply lookup_insert_eq | exact Hc].
Qed.

(** X22: when [tile_orthophoto.main] ends without an error, every tile of
    the table has an outer tile and a split, and the image file named after
    the tile exists and holds three bands. *)
Theorem tile_orthophoto_main_images (orthophoto : GeoTiff G)
    (shapefile : list (Area G)) (max_tile_size_px : Z) (buffer_m : Q)
    (outdir : string) (w w' : World) :
  tile_orthophoto_main orthophoto shapefile max_tile_size_px buffer_m outdir w
  = (Ok tt, w') ->
  exists tiles,
    tile_orthophoto_tiles orthophoto shapefile max_tile_size_px buffer_m = Ok tiles /\
    forall row, In row tiles ->
      exists tile split,
        tile_outer row = Some tile /\
        column "split" (tile_fields (tile_row row)) = Ok split /\
        three_band_at (outdir ++ "/images/" ++ split ++ "/tile_"
                         ++ tile_id (tile_row row) ++ ".tif")%string w'.
Proof.
  unfold tile_orthophoto_main.
  destruct (tile_orthophoto_tiles _ _ _ _) as [tiles | e]; [|discriminate].
  unfold mbind at 1, Script_bind at 1, lift at 1.
  unfold mbind at 1, Script_bind at 1, emit at 1.
  unfold mbind at 1, Script_bind at 1, emit at 1.
  unfold mbind at 1, Script_bind at 1, lift at 1.
  destruct (splits_of tiles) as [splits | e]; [|discriminate].
  unfold mbind at 1, Script_bind at 1.
  destruct (for_each splits _ _) as [[[] | e] w1]; [|discriminate].
  unfold mbind at 1, Script_bind at 1.
  destruct (for_each tiles _ w1) as [[[] | e] w2] eqn:Hloop; [|discriminate].
  unfold mbind at 1, Script_bind at 1, emit at 1. unfold emit.
  intros [= <-]. exists tiles. split; [reflexivity|].
  intros row Hin.
  destruct (crop_loop_images _ _ _ _ _ Hloop) as [_ Hall].
  destruct (Hall _ Hin) as (tile & split & Ho & Hs & r & Hr & Hc).
  exists tile, split. split; [exact Ho|]. split; [exact Hs|].
  exists r. split; [exact Hr | exact Hc].
Qed.

End CropTile.

(** ** Labels of the dataset *)

(** A box within an image box, when it converts, converts to a normalized
    label. *)
Lemma convert_within_normalized (obj img : BBox Q) (c : Z) (parts : YoloRecord Q) :
  bbox_within obj img -> convert_to_yolo_format obj img c = Ok parts ->
  normalized parts.
Proof.
  destruct obj as [[[ox1 oy1] ox2] oy2], img as [[[ix1 iy1] ix2] iy2].
  intros (H1 & H2 & H3 & H4 & H5 & H6) Hok.
  destruct (Qeq_dec (ix2 - ix1) 0) as [Hw | Hw].
  { rewrite convert_to_yolo_format_zero in Hok by tauto. discriminate. }
  destruct (Qeq_dec (iy2 - iy1) 0) as [Hh | Hh].
  { rewrite convert_to_yolo_format_zero in Hok by tauto. discriminate. }
  rewrite convert_to_yolo_format_Q in Hok by assumption. injection Hok as <-.
  unfold normalized. cbn [yolo_x_center yolo_y_center yolo_width yolo_height].
  destruct (Qdiv_unit (ox1 - ix1) (ix2 - ix1)) as [A0 A1]; try lra.
  destruct (Qdiv_unit (ox2 - ix1) (ix2 - ix1)) as [B0 B1]; try lra.
  destruct (Qdiv_unit (iy2 - oy2) (iy2 - iy1)) as [C0 C1]; try lra.
  destruct (Qdiv_unit (iy2 - oy1) (iy2 - iy1)) as [D0 D1]; try lra.
  pose proof (Qdiv_le_mono (ox1 - ix1) (ox2 - ix1) (ix2 - ix1) ltac:(lra) ltac:(lra)) as AB.
  pose proof (Qdiv_le_mono (iy2 - oy2) (iy2 - oy1) (iy2 - iy1) ltac:(lra) ltac:(lra)) as CD.
  set (a := ((ox1 - ix1) / (ix2 - ix1))%Q) in *.
  set (b := ((ox2 - ix1) / (ix2 - ix1))%Q) in *.
  set (u := ((iy2 - oy2) / (iy2 - iy1))%Q) in *.
  set (v := ((iy2 - oy1) / (iy2 - iy1))%Q) in *.
  clearbody a b u v. clear - A0 A1 B0 B1 C0 C1 D0 D1 AB CD.
  rewrite !Qhalf. repeat split; lra.
Qed.

Section Labels.
Context {G : Type} {geom : shapely.Geometry G} {blaws : BoundsLaws G}.

(** X23: in exact arithmetic, whatever [prepare_yolo_dataset.main] does,
    and however it ends, it only adds to the log, and every label line it
    appends is normalized. In binary64 the box of a label cut at the edge
    of the tile can leave the unit square by a rounding error
    ([normalized_binary64_overshoot]). *)
Theorem prepare_yolo_dataset_labels_normalized (orthophoto : GeoTiff G)
    (split_shapefile : list (Area G)) (bboxes_ref : list (Annotation G))
    (outdir : string) (wpx hpx : Z) (buffer_m : Q) (w w' : World)
    (r : Result unit) :
  prepare_yolo_dataset_main orthophoto split_shapefile bboxes_ref outdir
    wpx hpx buffer_m w = (r, w') ->
  exists evs, w_log w' = w_log w ++ evs /\
    forall path line, In (AppendLine path line) evs -> normalized line.
Proof.
  intros Hrun.
  assert (Happ : appended label_ok w w').
  { revert Hrun. unfold prepare_yolo_dataset_main.
    apply bind_appended.
    { intros a w1 [= _ <-]. now apply appended_same. }
    intros tiles w1 r1 w2 _.
    apply bind_appended.
    { intros a w3. now apply emit_appended. }
    intros _ w3 r3 w4 _.
    apply bind_appended.
    { intros a w5 [= _ <-]. now apply appended_same. }
    intros splits w5 r5 w6 _.
    apply bind_appended.
    { intros a w7. apply for_each_appended. intros split wa ra wb _.
      apply bind_appended.
      - intros ? ?. now apply emit_appended.
      - intros _ ? ? ? _. now apply emit_appended. }
    intros _ w7 r7 w8 _.
    apply bind_appended.
    { intros a w9. now apply emit_appended. }
    intros _ w9 r9 w10 _.
    apply for_each_appended. intros row wa ra wb _.
    apply bind_appended.
    { intros a wc. apply crop_tile_log. }
    intros [tile split] wc rc wd _.
    apply for_each_appended. intros tree we re wf Htree.
    apply bind_appended.
    { intros a wg [= _ <-]. now apply appended_same. }
    intros yolo wg rg wh Hconv. apply lift_same in Hconv as [_ Hconv].
    apply emit_appended. cbn [label_ok].
    unfold clip_annotations in Htree. apply filter_In in Htree as [Hin Hne].
    apply in_map_iff in Hin as (tree0 & <- & _). cbn [ann_geometry ann_class] in *.
    apply negb_true_iff in Hne.
    symmetry in Hconv.
    exact (convert_within_normalized _ _ _ _ (bounds_intersection _ _ Hne) Hconv). }
  destruct Happ as (evs & E & F). exists evs. split; [exact E|].
  intros path line Hin. rewrite List.Forall_forall in F. exact (F _ Hin).
Qed.

End Labels.

(** ** Sample runs *)


Lemma tile_orthophoto_main_images_witness :
  exists tiles,
    tile_orthophoto_tiles demo_orthophoto demo_areas 620 10 = Ok tiles /\
    forall row, In row tiles ->
      exists tile split,
        tile_outer row = Some tile /\
        column "split" (tile_fields (tile_row row)) = Ok split /\
        three_band_at (String.append "out" ("/images/" ++ split ++ "/tile_"
                         ++ tile_id (tile_row row) ++ ".tif"))%string
          (snd (tile_orthophoto_main demo_orthophoto demo_areas 620 10 "out"
                  (MkWorld ∅ []))).
Proof.
  apply (tile_orthophoto_main_images demo_orthophoto demo_areas 620 10 "out"
           (MkWorld ∅ [])).
  etransitivity; [apply surjective_pairing|].
  apply (f_equal2 pair); [vm_compute; reflexivity | reflexivity].
Defined.

Lemma prepare_yolo_dataset_labels_normalized_witness :
  (exists evs,
     w_log (snd (prepare_yolo_dataset_main demo_orthophoto demo_areas
                   demo_bboxes_ref "out" 620 620 10 (MkWorld ∅ [])))
     = w_log (MkWorld ∅ []) ++ evs /\
     forall path line, In (AppendLine path line) evs -> normalized line) /\
  exists line,
    In (AppendLine "out/labels/train/tile_0_0.txt" line)
       (w_log (snd (prepare_yolo_dataset_main demo_orthophoto demo_areas
                      demo_bboxes_ref "out" 620 620 10 (MkWorld ∅ [])))).
Proof.
  split.
  - apply (prepare_yolo_dataset_labels_normalized demo_orthophoto demo_areas
             demo_bboxes_ref "out" 620 620 10 (MkWorld ∅ []) _ (Ok tt)).
    etransitivity; [apply surjective_pairing|].
    apply (f_equal2 pair); [vm_compute; reflexivity | reflexivity].
  - eexists. vm_compute. do 4 right. left. reflexivity.
Defined.

Lemma tile_orthophoto_fails_fast_witness :
  tile_orthophoto_main demo_orthophoto demo_areas 620 400 "out" (MkWorld ∅ [])
  = (Raise (AssertionError assert_msg), MkWorld ∅ []).
Proof.
  apply (tile_orthophoto_fails_fast demo_orthophoto demo_areas 620 400 "out"
           (MkWorld ∅ [])).
  left. intros Hlt. vm_compute in Hlt. discriminate.
Defined.

Lemma prepare_tiles_containment_witness :
  exists tiles,
    prepare_yolo_dataset_tiles demo_orthophoto demo_areas 620 620 10 = Ok tiles /\
    length tiles = 4%nat /\
    forall t p, In t tiles ->
      (shapely.covers (tile_inner (tile_row t)) p = true ->
         covers_outer (tile_outer t) p = true) /\
      (covers_outer (tile_outer t) p = true ->
         in_bbox (geotiff_bounds demo_orthophoto) p = true).
Proof.
  eexists. split; [vm_compute; reflexivity|]. split; [reflexivity|].
  apply (prepare_tiles_containment demo_orthophoto demo_areas 620 620 10).
  - reflexivity.
  - reflexivity.
  - vm_compute. reflexivity.
Defined.
